(** * ProductLab: the payment routes of the backend (routes/payment.js)

    A shallow embedding of the Express router that creates orders, verifies
    Razorpay payments, serves the payment status and receives the Razorpay
    webhook, together with the properties of the order/payment state machine
    that the specification states about it.

    - JavaScript numbers are IEEE-754 binary64 values: [float].
    - A request field that may be absent ([undefined]) is an [option].
    - The orders collection is a finite map from the document [_id], the
      text of its ObjectId, to the document; [findById] is lookup and [save]
      is insert.
    - A route is a state transformer on the [World] (orders collection and the
      calls made to the gateway); the [try]/[catch] of every route turns a
      thrown error into the 500 response and keeps the writes made so far.
    - Node's crypto, JSON.stringify, Math.round, the Razorpay SDK and the
      Order model's schema are collaborators of the routes: the [Platform].
    - The callers of the routes are modelled as far as they decide what a
      route receives: [handleResponse] and [verifyUpiPayment] of
      services/api.ts, the request of the UPI verification page, and the
      cart of the storefront (a list of items updated by pure functions). *)

From Stdlib Require Import Floats QArith.
From stdpp Require Import base option strings pretty list gmap.

Set Warnings "-inexact-float".
Local Open Scope string_scope.

(** ** JavaScript values *)

(** [!x] on a string-or-undefined value: undefined and the empty string are
    falsy. *)
Definition truthy (x : option string) : bool :=
  match x with
  | None => false
  | Some s => negb (String.eqb s "")
  end.

(** String conversion in [a + '|' + b]: undefined prints as "undefined". *)
Definition toString (x : option string) : string :=
  match x with
  | None => "undefined"
  | Some s => s
  end.

(** [a !== b] on strings-or-undefined. *)
Definition strict_eqb (a b : option string) : bool :=
  match a, b with
  | None, None => true
  | Some x, Some y => String.eqb x y
  | _, _ => false
  end.

(** ** Data model (models/Order.js as the routes use it) *)



Record Item := {
  productId : option string;
  bundleId : option string;
  name : string;
  quantity : float;
  price : float;
  image : option string
}.

Record Address := {
  fullName : string;
  address : string;
  city : string;
  state : string;
  zipCode : string;
  country : string
}.

Inductive PaymentStatus := pending | completed | failed.

Record Order := {
  orderNumber : string;
  user : string;
  items : list Item;
  totalAmount : float;
  shippingAddress : option Address;
  paymentMethod : string;
  paymentStatus : PaymentStatus;
  status : string;
  upiVPA : option string;
  razorpayOrderId : option string;
  razorpayPaymentId : option string;
  razorpaySignature : option string
}.

Definition PaymentStatus_eqb (a b : PaymentStatus) : bool :=
  match a, b with
  | pending, pending | completed, completed | failed, failed => true
  | _, _ => false
  end.

(** Field assignments [order.f = v]. *)
Definition set_paymentStatus (v : PaymentStatus) (o : Order) : Order :=
  {| orderNumber := orderNumber o; user := user o; items := items o;
     totalAmount := totalAmount o; shippingAddress := shippingAddress o;
     paymentMethod := paymentMethod o; paymentStatus := v; status := status o;
     upiVPA := upiVPA o; razorpayOrderId := razorpayOrderId o;
     razorpayPaymentId := razorpayPaymentId o;
     razorpaySignature := razorpaySignature o |}.

Definition set_status (v : string) (o : Order) : Order :=
  {| orderNumber := orderNumber o; user := user o; items := items o;
     totalAmount := totalAmount o; shippingAddress := shippingAddress o;
     paymentMethod := paymentMethod o; paymentStatus := paymentStatus o;
     status := v; upiVPA := upiVPA o; razorpayOrderId := razorpayOrderId o;
     razorpayPaymentId := razorpayPaymentId o;
     razorpaySignature := razorpaySignature o |}.

Definition set_razorpayOrderId (v : option string) (o : Order) : Order :=
  {| orderNumber := orderNumber o; user := user o; items := items o;
     totalAmount := totalAmount o; shippingAddress := shippingAddress o;
     paymentMethod := paymentMethod o; paymentStatus := paymentStatus o;
     status := status o; upiVPA := upiVPA o; razorpayOrderId := v;
     razorpayPaymentId := razorpayPaymentId o;
     razorpaySignature := razorpaySignature o |}.

Definition set_razorpayPaymentId (v : option string) (o : Order) : Order :=
  {| orderNumber := orderNumber o; user := user o; items := items o;
     totalAmount := totalAmount o; shippingAddress := shippingAddress o;
     paymentMethod := paymentMethod o; paymentStatus := paymentStatus o;
     status := status o; upiVPA := upiVPA o;
     razorpayOrderId := razorpayOrderId o; razorpayPaymentId := v;
     razorpaySignature := razorpaySignature o |}.

Definition set_razorpaySignature (v : option string) (o : Order) : Order :=
  {| orderNumber := orderNumber o; user := user o; items := items o;
     totalAmount := totalAmount o; shippingAddress := shippingAddress o;
     paymentMethod := paymentMethod o; paymentStatus := paymentStatus o;
     status := status o; upiVPA := upiVPA o;
     razorpayOrderId := razorpayOrderId o;
     razorpayPaymentId := razorpayPaymentId o; razorpaySignature := v |}.

(** The authenticated user of a request ([req.user]). *)
Record User := {
  user_id : string;
  email : string
}.

(** [process.env] as the routes read it. *)
Record Env := {
  RAZORPAY_KEY_ID : option string;
  RAZORPAY_KEY_SECRET : option string;
  RAZORPAY_WEBHOOK_SECRET : option string
}.

(** ** The gateway (Razorpay SDK) *)

Record RazorpayOrderOptions := {
  opt_amount : float;
  opt_currency : string;
  opt_receipt : string;
  opt_method : option string;
  opt_notes_orderId : string;
  opt_notes_userId : string;
  opt_notes_userEmail : option string;
  opt_notes_upiVPA : option string
}.

Record RazorpayOrder := {
  rzp_id : string;
  rzp_amount : float;
  rzp_currency : string
}.

(** ** Requests *)

Record CreateOrderRequest := {
  co_user : option User;
  co_items : option (list Item);
  co_shippingAddress : option Address
}.

Record CreateUpiRequest := {
  cu_user : option User;
  cu_items : option (list Item);
  cu_shippingAddress : option Address;
  cu_upiVPA : option string
}.

Record VerifyPaymentRequest := {
  vp_user : option User;
  vp_razorpay_order_id : option string;
  vp_razorpay_payment_id : option string;
  vp_razorpay_signature : option string;
  vp_orderId : option string
}.

Record VerifyUpiRequest := {
  vu_user : option User;
  vu_orderId : string;
  vu_razorpay_payment_id : option string;
  vu_razorpay_order_id : option string;
  vu_razorpay_signature : option string
}.

Record StatusRequest := {
  st_user : option User;
  st_orderId : string
}.

(** [req.body.payload.payment.entity] of a webhook event: its [id] and
    [notes?.orderId]. *)
Record PaymentEntity := {
  entity_id : option string;
  notes_orderId : option string
}.

(** The parsed body of a webhook delivery (server.js installs
    [express.json()] ahead of the router, so [req.body] is the parsed
    object).  [payload_payment_entity] is [None] when [payload] or
    [payload.payment] is missing, so that reading [payload.payment.entity]
    throws; a payment is taken to carry its entity. *)
Record WebhookBody := {
  event : option string;
  payload_payment_entity : option PaymentEntity
}.

(** A webhook delivery: the bytes on the wire, the signature header and the
    parsed body. *)
Record WebhookRequest := {
  wh_raw : string;
  wh_signature : option string;
  wh_body : WebhookBody
}.

(** ** Responses *)

Inductive Body :=
| Message (success : bool) (message : string)
| Failure (message : string) (error : string)
| OrderCreated (orderId razorpayOrderId : string) (amount : float)
    (currency : string) (keyId : option string)
| UpiCreated (orderId orderNumber razorpayOrderId upiLink : string)
    (totalAmount : float) (keyId : option string) (message : string)
| Verified (message : string) (orderId : string) (order : Order)
| PaymentStatusOf (paymentStatus : PaymentStatus) (paymentMethod : string)
    (orderStatus : string) (totalAmount : float)
| WebhookOk
| WebhookFailed
| Text (text : string).

Record Response := {
  code : nat;
  body : Body
}.

Definition json (b : Body) : Response := {| code := 200; body := b |}.
Definition status_json (c : nat) (b : Body) : Response :=
  {| code := c; body := b |}.

(** ** The world: the orders collection and the calls made to the gateway *)

Record World := {
  orders : gmap string Order;
  gateway : list RazorpayOrderOptions
}.

(** ** Collaborators of the routes *)

Class Platform := {
  (** [crypto.createHmac('sha256', key).update(msg).digest('hex')] *)
  hmac_sha256_hex : string -> string -> string;
  (** [JSON.stringify(req.body)] *)
  JSON_stringify : WebhookBody -> string;
  (** [Math.round] *)
  Math_round : float -> float;
  (** number to string in a template literal *)
  Number_toString : float -> string;
  (** [razorpay.orders.create]; [None] when the call rejects *)
  razorpay_orders_create : RazorpayOrderOptions -> option RazorpayOrder;
  (** schema validation run by [save] on a new document *)
  Order_validate : Order -> bool;
  (** the [_id] and the [orderNumber] the model gives a new document *)
  new_ObjectId : gmap string Order -> string;
  new_orderNumber : gmap string Order -> string
}.

(** ** Control flow of an [async] route body *)

Inductive Completion (A : Type) :=
| Return (a : A)
| Throw (error : string).

Arguments Return {A} a.
Arguments Throw {A} error.

Definition Async (A : Type) : Type := World -> Completion A * World.

Definition ret {A : Type} (a : A) : Async A := fun w => (Return a, w).

Definition throw {A : Type} (e : string) : Async A := fun w => (Throw e, w).

Definition bind {A B : Type} (m : Async A) (k : A -> Async B) : Async B :=
  fun w =>
    match m w with
    | (Return a, w') => k a w'
    | (Throw e, w') => (Throw e, w')
    end.

Notation "'await' x <- m 'in' k" := (bind m (fun x => k))
  (at level 10, x name, m at level 100, k at level 200).
Notation "'exec' m 'in' k" := (bind m (fun _ => k))
  (at level 10, m at level 100, k at level 200).

(** [try { body } catch (error) { handler }] around a route body. *)
Definition try_catch (m : Async Response) (handler : string -> Response)
  : World -> Response * World :=
  fun w =>
    match m w with
    | (Return r, w') => (r, w')
    | (Throw e, w') => (handler e, w')
    end.

(** ** The pricing arithmetic of create-order and create-upi-payment *)

Local Open Scope float_scope.

(** [items.reduce((sum, item) => sum + item.price * item.quantity, 0)] *)
Definition calc_subtotal (l : list Item) : float :=
  fold_left (fun sum item => sum + price item * quantity item) l 0.

(** [subtotal > 50 ? 0 : 10] *)
Definition calc_shipping (subtotal : float) : float :=
  if 50 <? subtotal then 0 else 10.

(** [subtotal * 0.1] *)
Definition calc_tax (subtotal : float) : float := subtotal * 0.1.

(** [subtotal + shipping + tax] *)
Definition calc_totalAmount (l : list Item) : float :=
  let subtotal := calc_subtotal l in
  let shipping := calc_shipping subtotal in
  let tax := calc_tax subtotal in
  subtotal + shipping + tax.

Local Close Scope float_scope.

(** The document that create-order and create-upi-payment build: payment
    pending, fulfilment pending, no gateway references yet. *)
Definition initial_order (number : string) (u : User) (l : list Item)
    (total : float) (addr : option Address) (method : string)
    (vpa : option string) : Order :=
  {| orderNumber := number; user := user_id u; items := l;
     totalAmount := total; shippingAddress := addr; paymentMethod := method;
     paymentStatus := pending; status := "pending"; upiVPA := vpa;
     razorpayOrderId := None; razorpayPaymentId := None;
     razorpaySignature := None |}.

(** ** The routes *)

Section Routes.

Context {P : Platform}.

(** [Order.findById(id)]: the document stored under [id], or null.  The ids
    of the collection are ObjectId texts ([ObjectId_text]); for any other
    string Mongoose's cast throws and the route ends in its catch handler
    with nothing written, which is rendered here as a lookup that finds
    nothing. *)
Definition findById (id : string) : Async (option Order) :=
  fun w => (Return (orders w !! id), w).

(** [order.save()] of a document that was loaded from the collection or has
    been saved before: the routes only assign status and reference fields,
    and the document is written back under its [_id]. *)
Definition save (id : string) (o : Order) : Async unit :=
  fun w => (Return tt, {| orders := <[id := o]> (orders w);
                          gateway := gateway w |}).

(** [order.save()] of a document just built with [new Order(...)]: the
    schema validates it, and a rejected document is not written. *)
Definition save_new (id : string) (o : Order) : Async unit :=
  if Order_validate o then save id o
  else throw "Order validation failed".

(** [new Order({...})]: the model supplies [_id] and [orderNumber]. *)
Definition new_Order (u : User) (l : list Item) (total : float)
    (addr : option Address) (method : string) (vpa : option string)
  : Async (string * Order) :=
  fun w =>
    (Return (new_ObjectId (orders w),
             initial_order (new_orderNumber (orders w)) u l total addr
               method vpa),
     w).

(** [razorpay.orders.create(options)]: every call reaches the gateway and is
    logged; a rejected call throws. *)
Definition orders_create (options : RazorpayOrderOptions)
  : Async RazorpayOrder :=
  fun w =>
    let w' := {| orders := orders w; gateway := options :: gateway w |} in
    match razorpay_orders_create options with
    | Some r => (Return r, w')
    | None => (Throw "razorpay.orders.create failed", w')
    end.

(** [crypto.createHmac('sha256', key).update(msg).digest('hex')]: an
    undefined key throws a TypeError. *)
Definition createHmac (key : option string) (msg : string) : Async string :=
  match key with
  | Some k => ret (hmac_sha256_hex k msg)
  | None => throw "The key argument must be of type string"
  end.

(** middleware/auth.js, [isAuthenticated]: the 401 answer. *)
Definition unauthenticated : Response :=
  status_json 401
    (Message false "You must be logged in to access this resource").

Definition isAuthenticated (u : option User)
    (next : User -> World -> Response * World) : World -> Response * World :=
  match u with
  | Some usr => next usr
  | None => fun w => (unauthenticated, w)
  end.

(** POST /create-order *)
Definition create_order (env : Env) (req : CreateOrderRequest)
  : World -> Response * World :=
  isAuthenticated (co_user req) (fun u =>
    try_catch
      (match co_items req with
       | None | Some [] =>
           ret (status_json 400 (Message false "Cart items are required"))
       | Some l =>
           let totalAmount := calc_totalAmount l in
           await doc <- new_Order u l totalAmount (co_shippingAddress req)
                     "razorpay" None in
           let id := fst doc in
           let order := snd doc in
           exec save_new id order in
           await razorpayOrder <- orders_create
             {| opt_amount := Math_round (totalAmount * 100)%float;
                opt_currency := "INR";
                opt_receipt := orderNumber order;
                opt_method := None;
                opt_notes_orderId := id;
                opt_notes_userId := user_id u;
                opt_notes_userEmail := Some (email u);
                opt_notes_upiVPA := None |} in
           let order := set_razorpayOrderId (Some (rzp_id razorpayOrder))
                          order in
           exec save id order in
           ret (json (OrderCreated id (rzp_id razorpayOrder)
                        (rzp_amount razorpayOrder)
                        (rzp_currency razorpayOrder)
                        (RAZORPAY_KEY_ID env)))
       end)
      (fun e => status_json 500 (Failure "Failed to create order" e))).

(** POST /verify-payment *)
Definition verify_payment (env : Env) (req : VerifyPaymentRequest)
  : World -> Response * World :=
  isAuthenticated (vp_user req) (fun _ =>
    try_catch
      (if negb (truthy (vp_razorpay_order_id req))
          || negb (truthy (vp_razorpay_payment_id req))
          || negb (truthy (vp_razorpay_signature req))
       then ret (status_json 400
                   (Message false "Missing payment verification parameters"))
       else
         await found <- match vp_orderId req with
                   | Some id => findById id
                   | None => ret None
                   end in
         match vp_orderId req, found with
         | Some id, Some order =>
             let body := toString (vp_razorpay_order_id req) ++ "|"
                         ++ toString (vp_razorpay_payment_id req) in
             await expectedSignature <- createHmac (RAZORPAY_KEY_SECRET env)
                                     body in
             let isAuthentic := strict_eqb (Some expectedSignature)
                                  (vp_razorpay_signature req) in
             if isAuthentic then
               let order := set_paymentStatus completed order in
               let order := set_status "processing" order in
               let order := set_razorpayPaymentId
                              (vp_razorpay_payment_id req) order in
               let order := set_razorpaySignature
                              (vp_razorpay_signature req) order in
               exec save id order in
               ret (json (Verified "Payment verified successfully" id order))
             else
               let order := set_paymentStatus failed order in
               exec save id order in
               ret (status_json 400
                      (Message false "Payment verification failed"))
         | _, _ => ret (status_json 404 (Message false "Order not found"))
         end)
      (fun e => status_json 500 (Failure "Failed to verify payment" e))).

(** POST /webhook from [const payload = req.body.payload.payment.entity]
    on: the [switch (event)] (its cases compare with [===]) and the
    acknowledgement after it. *)
Definition handle_event (b : WebhookBody) : Async Response :=
  match payload_payment_entity b with
  | None => throw "Cannot read properties of undefined"
  | Some payload =>
      exec (if strict_eqb (event b) (Some "payment.captured") then
              let orderId := notes_orderId payload in
              if truthy orderId then
                await order <- findById (toString orderId) in
                match order with
                | Some order =>
                    if negb (PaymentStatus_eqb (paymentStatus order)
                               completed)
                    then
                      let order := set_paymentStatus completed order in
                      let order := set_status "processing" order in
                      let order := set_razorpayPaymentId (entity_id payload)
                                     order in
                      save (toString orderId) order
                    else ret tt
                | None => ret tt
                end
              else ret tt
            else if strict_eqb (event b) (Some "payment.failed") then
              let failedOrderId := notes_orderId payload in
              if truthy failedOrderId then
                await order <- findById (toString failedOrderId) in
                match order with
                | Some order =>
                    let order := set_paymentStatus failed order in
                    save (toString failedOrderId) order
                | None => ret tt
                end
              else ret tt
            else ret tt) in
      ret (json WebhookOk)
  end.

(** The tag the webhook compares the [x-razorpay-signature] header with. *)
Definition webhook_expected (secret : string) (req : WebhookRequest)
  : string :=
  hmac_sha256_hex secret (JSON_stringify (wh_body req)).

(** The signature check of the webhook: made only when the secret is set,
    and failed when the header is not the expected tag. *)
Definition webhook_rejects (env : Env) (req : WebhookRequest) : bool :=
  let webhookSecret := RAZORPAY_WEBHOOK_SECRET env in
  let webhookSignature := wh_signature req in
  truthy webhookSecret
  && negb (strict_eqb webhookSignature
             (Some (webhook_expected (toString webhookSecret) req))).

(** The 500 answer of the webhook's catch handler. *)
Definition webhook_failed (e : string) : Response :=
  status_json 500 WebhookFailed.

(** POST /webhook *)
Definition webhook (env : Env) (req : WebhookRequest)
  : World -> Response * World :=
  try_catch
    (if webhook_rejects env req
     then ret (status_json 400
                 (Text "Webhook signature verification failed"))
     else handle_event (wh_body req))
    webhook_failed.

(** POST /create-upi-payment *)
Definition create_upi_payment (env : Env) (req : CreateUpiRequest)
  : World -> Response * World :=
  isAuthenticated (cu_user req) (fun u =>
    try_catch
      (match cu_items req with
       | None | Some [] =>
           ret (status_json 400 (Message false "Cart items are required"))
       | Some l =>
           if negb (truthy (cu_upiVPA req)) then
             ret (status_json 400 (Message false "UPI VPA is required"))
           else
             let totalAmount := calc_totalAmount l in
             await doc <- new_Order u l totalAmount (cu_shippingAddress req)
                            "upi" (cu_upiVPA req) in
             let id := fst doc in
             let order := snd doc in
             exec save_new id order in
             await razorpayOrder <- orders_create
               {| opt_amount := Math_round (totalAmount * 100)%float;
                  opt_currency := "INR";
                  opt_receipt := orderNumber order;
                  opt_method := Some "upi";
                  opt_notes_orderId := id;
                  opt_notes_userId := user_id u;
                  opt_notes_userEmail := None;
                  opt_notes_upiVPA := cu_upiVPA req |} in
             let order := set_razorpayOrderId (Some (rzp_id razorpayOrder))
                            order in
             exec save id order in
             let upiLink := "upi://pay?pa=" ++ toString (cu_upiVPA req)
                            ++ "&pn=ProductLab&am="
                            ++ Number_toString totalAmount
                            ++ "&cu=INR&tn=Order " ++ orderNumber order in
             ret (json (UpiCreated id (orderNumber order)
                          (rzp_id razorpayOrder) upiLink totalAmount
                          (RAZORPAY_KEY_ID env)
                          "UPI payment initiated. Please complete payment on your UPI app."))
       end)
      (fun e => status_json 500 (Failure "Failed to create UPI payment" e))).

(** POST /verify-upi/:orderId *)
Definition verify_upi (env : Env) (req : VerifyUpiRequest)
  : World -> Response * World :=
  isAuthenticated (vu_user req) (fun _ =>
    try_catch
      (let orderId := vu_orderId req in
       await found <- findById orderId in
       match found with
       | None => ret (status_json 404 (Message false "Order not found"))
       | Some order =>
           if negb (String.eqb (paymentMethod order) "upi") then
             ret (status_json 400
                    (Message false "Invalid payment method for this order"))
           else
             let body := toString (vu_razorpay_order_id req) ++ "|"
                         ++ toString (vu_razorpay_payment_id req) in
             await expectedSignature <- createHmac (RAZORPAY_KEY_SECRET env)
                                          body in
             if strict_eqb (Some expectedSignature)
                  (vu_razorpay_signature req)
             then
               let order := set_paymentStatus completed order in
               let order := set_status "processing" order in
               let order := set_razorpayPaymentId
                              (vu_razorpay_payment_id req) order in
               let order := set_razorpaySignature
                              (vu_razorpay_signature req) order in
               exec save orderId order in
               ret (json (Verified "UPI payment verified successfully"
                            orderId order))
             else
               ret (status_json 400
                      (Message false "Payment verification failed"))
       end)
      (fun e => status_json 500 (Failure "Failed to verify UPI payment" e))).

(** GET /status/:orderId *)
Definition payment_status (req : StatusRequest)
  : World -> Response * World :=
  isAuthenticated (st_user req) (fun u =>
    try_catch
      (let orderId := st_orderId req in
       await found <- findById orderId in
       match found with
       | None => ret (status_json 404 (Message false "Order not found"))
       | Some order =>
           if negb (String.eqb (user order) (user_id u)) then
             ret (status_json 403 (Message false "Access denied"))
           else
             ret (json (PaymentStatusOf (paymentStatus order)
                          (paymentMethod order) (status order)
                          (totalAmount order)))
       end)
      (fun e => status_json 500 (Failure "Failed to get payment status" e))).

End Routes.

(** ** The Order schema and a test double of the platform *)

(** Modelled from the spec: the validators of the Order schema in
    models/Order.js, which is not among the sources.  The data model (§3)
    gives a line item a quantity of at least 1 and makes every field of the
    shipping address required and non-empty; the input constraints of order
    creation (§4.1) ask for a non-negative unit price. *)
Definition Order_schema_valid (o : Order) : bool :=
  forallb (fun i => (1 <=? quantity i)%float && (0 <=? price i)%float)
    (items o)
  && match shippingAddress o with
     | None => false
     | Some a =>
         negb (String.eqb (fullName a) "")
         && negb (String.eqb (address a) "")
         && negb (String.eqb (city a) "")
         && negb (String.eqb (state a) "")
         && negb (String.eqb (zipCode a) "")
         && negb (String.eqb (country a) "")
     end.

(** A keyed tag that is a function of key and message, standing in for
    HMAC-SHA256 when a route is evaluated on a concrete request. *)
Definition sample_hmac (key msg : string) : string :=
  "hmac[" ++ key ++ "](" ++ msg ++ ")".

(** The double quote character, for the JSON text below. *)
Definition dquote : string := String (Ascii.ascii_of_nat 34) EmptyString.

Definition sample_field (x : option string) : string :=
  match x with
  | None => "null"
  | Some s => dquote ++ s ++ dquote
  end.

(** A compact serialisation of the modelled part of a webhook body, as
    JSON.stringify prints an object: no white space between tokens. *)
Definition sample_stringify (b : WebhookBody) : string :=
  "{event:" ++ sample_field (event b) ++ ",entity:"
  ++ match payload_payment_entity b with
     | None => "null"
     | Some e => "{id:" ++ sample_field (entity_id e) ++ ",orderId:"
                 ++ sample_field (notes_orderId e) ++ "}"
     end
  ++ "}".

(** Math.round on the amounts of the examples: the nearest integer, ties
    upwards, for a finite value below 2^52 in magnitude. *)
Definition sample_round (x : float) : float :=
  (let big := 4503599627370496 in
   if (abs x <? big) then
     let r := if 0 <=? x then (x + big) - big else (x - big) + big in
     let f := if x <? r then r - 1 else r in
     if 0.5 <=? x - f then f + 1 else f
   else x)%float.

#[local] Instance sample_platform : Platform := {|
  hmac_sha256_hex := sample_hmac;
  JSON_stringify := sample_stringify;
  Math_round := sample_round;
  Number_toString := fun _ => "<amount>";
  razorpay_orders_create := fun options =>
    Some {| rzp_id := "order_" ++ opt_receipt options;
            rzp_amount := opt_amount options;
            rzp_currency := opt_currency options |};
  Order_validate := Order_schema_valid;
  new_ObjectId := fun m => "oid" ++ pretty (size m);
  new_orderNumber := fun m => "ORD" ++ pretty (size m)
|}.

(** Sample data for evaluating the routes. *)
Definition sample_env : Env :=
  {| RAZORPAY_KEY_ID := Some "rzp_test_key";
     RAZORPAY_KEY_SECRET := Some "key_secret";
     RAZORPAY_WEBHOOK_SECRET := Some "hook_secret" |}.

(** The same deployment with no webhook secret configured. *)
Definition sample_env_no_hook : Env :=
  {| RAZORPAY_KEY_ID := Some "rzp_test_key";
     RAZORPAY_KEY_SECRET := Some "key_secret";
     RAZORPAY_WEBHOOK_SECRET := None |}.

Definition alice : User :=
  {| user_id := "alice"; email := "alice@example.org" |}.
Definition mallory : User :=
  {| user_id := "mallory"; email := "mallory@example.org" |}.

Definition sample_address : Address :=
  {| fullName := "Alice A"; address := "1 Main Street"; city := "Pune";
     state := "MH"; zipCode := "411001"; country := "IN" |}.

Definition sample_item (p q : float) : Item :=
  {| productId := Some "p1"; bundleId := None; name := "Headphones";
     quantity := q; price := p; image := None |}.

(** An order of alice's with the given method and payment status. *)
Definition sample_order (method : string) (ps : PaymentStatus) : Order :=
  {| orderNumber := "ORD0"; user := "alice";
     items := [sample_item 100 1]; totalAmount := 110;
     shippingAddress := Some sample_address; paymentMethod := method;
     paymentStatus := ps;
     status := match ps with completed => "processing" | _ => "pending" end;
     upiVPA := None; razorpayOrderId := Some "order_ORD0";
     razorpayPaymentId := None; razorpaySignature := None |}.

(** A world holding one order, under the id "o1". *)
Definition sample_world (o : Order) : World :=
  {| orders := {[ "o1" := o ]}; gateway := [] |}.

Definition empty_world : World := {| orders := ∅; gateway := [] |}.

(** Sample requests.  Orders live under the id "o1" of [sample_world]. *)
Definition verify_request (u : User) (oid pid sig : string)
  : VerifyPaymentRequest :=
  {| vp_user := Some u; vp_razorpay_order_id := Some oid;
     vp_razorpay_payment_id := Some pid; vp_razorpay_signature := Some sig;
     vp_orderId := Some "o1" |}.

Definition upi_verify_request (u : User) (oid pid sig : string)
  : VerifyUpiRequest :=
  {| vu_user := Some u; vu_orderId := "o1";
     vu_razorpay_payment_id := Some pid; vu_razorpay_order_id := Some oid;
     vu_razorpay_signature := Some sig |}.

(** The tag the gateway issues for the sample payment. *)
Definition sample_signature : string :=
  sample_hmac "key_secret" "order_ORD0|pay_1".

(** A webhook event about the payment "pay_1" of the order "o1". *)
Definition sample_event (kind : string) : WebhookBody :=
  {| event := Some kind;
     payload_payment_entity :=
       Some {| entity_id := Some "pay_1"; notes_orderId := Some "o1" |} |}.

(** A delivery of [b] with the given raw bytes and signature header. *)
Definition delivery (raw : string) (sig : option string) (b : WebhookBody)
  : WebhookRequest :=
  {| wh_raw := raw; wh_signature := sig; wh_body := b |}.

(** A delivery whose header is the tag of the serialised parsed body. *)
Definition signed_delivery (b : WebhookBody) : WebhookRequest :=
  delivery (sample_stringify b)
    (Some (sample_hmac "hook_secret" (sample_stringify b))) b.

Definition cart_request (l : list Item) : CreateOrderRequest :=
  {| co_user := Some alice; co_items := Some l;
     co_shippingAddress := Some sample_address |}.

Definition upi_cart_request (l : list Item) : CreateUpiRequest :=
  {| cu_user := Some alice; cu_items := Some l;
     cu_shippingAddress := Some sample_address;
     cu_upiVPA := Some "alice@upi" |}.

(** The payment status of the order stored under [id], if any. *)
Definition paymentStatus_of (w : World) (id : string) : option PaymentStatus :=
  paymentStatus <$> orders w !! id.

(** What a verified payment writes on the order (verify-payment and
    verify-upi, match branch). *)
Definition mark_verified (pid sig : option string) (o : Order) : Order :=
  set_razorpaySignature sig
    (set_razorpayPaymentId pid
       (set_status "processing" (set_paymentStatus completed o))).

(** What a captured payment writes on the order (webhook). *)
Definition mark_captured (pid : option string) (o : Order) : Order :=
  set_razorpayPaymentId pid
    (set_status "processing" (set_paymentStatus completed o)).

(** The world with [o] written under [id]. *)
Definition with_order (w : World) (id : string) (o : Order) : World :=
  {| orders := <[id := o]> (orders w); gateway := gateway w |}.

(** The rational number a finite double stands for. *)
Definition float_to_Q (f : float) : option Q :=
  match Prim2SF f with
  | S754_zero _ => Some 0%Q
  | S754_finite s m e =>
      Some ((if s then -1 else 1) * inject_Z (Z.pos m) * Qpower 2 e)%Q
  | _ => None
  end.

(** The total as the specification words it, in exact arithmetic over the
    (price, quantity) pairs: subtotal + shipping + tax with shipping 0 above
    50 and 10 otherwise, and tax a tenth of the subtotal.  It is compared
    with [calc_totalAmount], which is what the routes compute. *)
Definition spec_totalAmount (l : list (Q * Q)) : Q :=
  (let subtotal := fold_left (fun sum pq => sum + fst pq * snd pq) l 0 in
   let shipping := if Qle_bool subtotal 50 then 10 else 0 in
   let tax := (1 # 10) * subtotal in
   subtotal + shipping + tax)%Q.

(** ** GET /details/:paymentId *)

(** A payment as [razorpay.payments.fetch] returns it (the fields the route
    reads). *)
Record RazorpayPayment := {
  pmt_id : string;
  pmt_amount : float;
  pmt_currency : string;
  pmt_status : string;
  pmt_method : string;
  pmt_email : string;
  pmt_contact : string;
  pmt_created_at : float
}.




Section Details.

(** [razorpay.payments.fetch]; [None] when the call rejects. *)
Variable razorpay_payments_fetch : string -> option RazorpayPayment.


End Details.

(** ** The client of the payment routes (services/api.ts) *)

(** [response.ok]: a status in the range 200-299. *)
Definition response_ok (r : Response) : bool :=
  (200 <=? code r)%nat && (code r <=? 299)%nat.

(** [data.message] of a JSON answer. *)
Definition data_message (b : Body) : option string :=
  match b with
  | Message _ m => Some m
  | Failure m _ => Some m
  | UpiCreated _ _ _ _ _ _ m => Some m
  | Verified m _ _ => Some m
  | _ => None
  end.

(** [handleResponse]: the parsed body of an ok response; any other response
    throws an Error carrying [data.message || 'Something went wrong'].  A
    body that is not JSON (the text the webhook sends) makes
    [response.json()] throw. *)
Definition handleResponse (r : Response) : Completion Body :=
  match body r with
  | Text _ => Throw "Unexpected token in JSON"
  | data =>
      if response_ok r then Return data
      else Throw (if truthy (data_message data)
                  then toString (data_message data)
                  else "Something went wrong")
  end.

(** The body of [paymentAPI.verifyUpiPayment]. *)
Record UpiVerifyData := {
  data_razorpay_payment_id : string;
  data_razorpay_order_id : string;
  data_razorpay_signature : string
}.

(** What UpiVerifyPage's [handleVerifyPayment] passes to
    [paymentAPI.verifyUpiPayment]: the payment id the user typed, the gateway
    order id of the page, and a fixed text in place of a signature. *)
Definition upi_page_data (paymentId razorpayOrderId : string)
  : UpiVerifyData :=
  {| data_razorpay_payment_id := paymentId;
     data_razorpay_order_id := razorpayOrderId;
     data_razorpay_signature := "manual_verification" |}.

(** A string that a URL carries unchanged as one path segment: non-empty,
    of letters, digits, [-] and [_]. *)
Definition segment_char (c : Ascii.ascii) : bool :=
  let n := Ascii.nat_of_ascii c in
  ((48 <=? n) && (n <=? 57) || (65 <=? n) && (n <=? 90)
   || (97 <=? n) && (n <=? 122) || (n =? 45) || (n =? 95))%nat.

Definition path_segment (s : string) : bool :=
  negb (String.eqb s "") && forallb segment_char (String.list_ascii_of_string s).

Section Client.

Context {P : Platform}.

(** What the server answers to a POST on any other path. *)
Variable other_routes : string -> World -> Response * World.

(** [paymentAPI.verifyUpiPayment(orderId, data)]: POST
    /payment/verify-upi/<orderId> with the session cookie, then
    [handleResponse].  [orderId] is put into the path as it is: when it is
    one path segment the request reaches verify-upi with it as the route
    parameter, and otherwise the path is another one. *)
Definition verifyUpiPayment (env : Env) (session : option User)
    (orderId : string) (data : UpiVerifyData)
  : World -> Completion Body * World :=
  fun w =>
    let (response, w') :=
      if path_segment orderId then
        verify_upi env
          {| vu_user := session; vu_orderId := orderId;
             vu_razorpay_payment_id := Some (data_razorpay_payment_id data);
             vu_razorpay_order_id := Some (data_razorpay_order_id data);
             vu_razorpay_signature := Some (data_razorpay_signature data) |}
          w
      else other_routes ("/payment/verify-upi/" ++ orderId) w in
    (handleResponse response, w').

End Client.

(** ** The cart of the storefront (AppContext) *)

(** [CartItem]: [variant] is an opaque value, absent when undefined. *)
Record CartItem := {
  cart_productId : string;
  cart_quantity : float;
  cart_variant : option string
}.

(** [prev.find(item => item.productId === productId)] *)
Definition cart_find (productId : string) (cart : list CartItem)
  : option CartItem :=
  List.find (fun item => String.eqb (cart_productId item) productId) cart.

(** [addToCart(productId, quantity = 1, variant)], as the update of the cart
    state. *)
Definition addToCart (productId : string) (quantity : option float)
    (variant : option string) (prev : list CartItem) : list CartItem :=
  let quantity := match quantity with Some q => q | None => 1%float end in
  match cart_find productId prev with
  | Some existingItem =>
      map (fun item =>
             if String.eqb (cart_productId item) productId
             then {| cart_productId := cart_productId item;
                     cart_quantity := (cart_quantity item + quantity)%float;
                     cart_variant := variant |}
             else item) prev
  | None =>
      prev ++ [{| cart_productId := productId; cart_quantity := quantity;
                  cart_variant := variant |}]
  end.

(** [removeFromCart(productId)] *)
Definition removeFromCart (productId : string) (prev : list CartItem)
  : list CartItem :=
  List.filter (fun item => negb (String.eqb (cart_productId item) productId))
    prev.

(** [updateCartQuantity(productId, quantity)] *)
Definition updateCartQuantity (productId : string) (quantity : float)
    (prev : list CartItem) : list CartItem :=
  if (quantity <=? 0)%float then removeFromCart productId prev
  else
    map (fun item =>
           if String.eqb (cart_productId item) productId
           then {| cart_productId := cart_productId item;
                   cart_quantity := quantity;
                   cart_variant := cart_variant item |}
           else item) prev.

(** [clearCart()] *)
Definition clearCart (prev : list CartItem) : list CartItem := [].

(** The product ids of a cart, in order. *)
Definition cart_ids (cart : list CartItem) : list string :=
  map cart_productId cart.

(** The minus button of an item in the cart drawer (CartDrawer):
    [updateCartQuantity(item.productId, item.quantity - 1)]. *)
Definition drawer_minus (item : CartItem) (prev : list CartItem)
  : list CartItem :=
  updateCartQuantity (cart_productId item) (cart_quantity item - 1)%float
    prev.

(** One call of the cart's interface, and a session of calls from the empty
    cart the provider starts with. *)
Inductive CartAction :=
| AddToCart (productId : string) (quantity : option float)
    (variant : option string)
| RemoveFromCart (productId : string)
| UpdateCartQuantity (productId : string) (quantity : float)
| ClearCart.

Definition cart_step (cart : list CartItem) (a : CartAction)
  : list CartItem :=
  match a with
  | AddToCart p q v => addToCart p q v cart
  | RemoveFromCart p => removeFromCart p cart
  | UpdateCartQuantity p q => updateCartQuantity p q cart
  | ClearCart => clearCart cart
  end.

Definition cart_after (session : list CartAction) : list CartItem :=
  fold_left cart_step session [].

(** ** What the verification routes and the webhook keep of an order *)

(** [o'] carries the same order data as [o]: everything but the payment
    status, the fulfilment status, and the payment id and signature. *)
Definition same_order_data (o o' : Order) : Prop :=
  orderNumber o' = orderNumber o /\ user o' = user o /\ items o' = items o
  /\ totalAmount o' = totalAmount o
  /\ shippingAddress o' = shippingAddress o
  /\ paymentMethod o' = paymentMethod o /\ upiVPA o' = upiVPA o
  /\ razorpayOrderId o' = razorpayOrderId o.

(** The order id a webhook delivery names, if any. *)
Definition webhook_target (req : WebhookRequest) : option string :=
  match payload_payment_entity (wh_body req) with
  | Some e => notes_orderId e
  | None => None
  end.

(** The test double with the gateway out of reach: every
    [razorpay.orders.create] rejects. *)
Definition offline_platform : Platform := {|
  hmac_sha256_hex := sample_hmac;
  JSON_stringify := sample_stringify;
  Math_round := sample_round;
  Number_toString := fun _ => "<amount>";
  razorpay_orders_create := fun _ => None;
  Order_validate := Order_schema_valid;
  new_ObjectId := fun m => "oid" ++ pretty (size m);
  new_orderNumber := fun m => "ORD" ++ pretty (size m)
|}.

(** The sample deployment with no key secret configured. *)
Definition sample_env_no_key : Env :=
  {| RAZORPAY_KEY_ID := Some "rzp_test_key";
     RAZORPAY_KEY_SECRET := None;
     RAZORPAY_WEBHOOK_SECRET := Some "hook_secret" |}.

(** * Properties *)

Section Properties.

Context {P : Platform}.

Lemma truthy_Some (s : string) : s <> "" -> truthy (Some s) = true.
Proof.
  intros Hs. unfold truthy.
  destruct (String.eqb_spec s "") as [E | _]; [contradiction | reflexivity].
Qed.

(** C1 (as amended): a verify-payment request of an authenticated user that
    carries non-empty gateway order id, payment id and signature, names an
    existing order, and whose signature is the HMAC-SHA256 hex tag of
    [order id | payment id] under the configured key secret, answers 200 with
    the updated order, and the order is saved with paymentStatus completed,
    status processing, and the payment id and signature recorded. *)
Theorem verify_payment_authentic (env : Env) (req : VerifyPaymentRequest)
    (w : World) (u : User) (secret oid pid sig id : string) (order : Order) :
  vp_user req = Some u ->
  vp_razorpay_order_id req = Some oid -> oid <> "" ->
  vp_razorpay_payment_id req = Some pid -> pid <> "" ->
  vp_razorpay_signature req = Some sig -> sig <> "" ->
  vp_orderId req = Some id ->
  orders w !! id = Some order ->
  RAZORPAY_KEY_SECRET env = Some secret ->
  sig = hmac_sha256_hex secret (oid ++ "|" ++ pid) ->
  let order' := mark_verified (Some pid) (Some sig) order in
  verify_payment env req w
  = (json (Verified "Payment verified successfully" id order'),
     with_order w id order')
  /\ paymentStatus order' = completed
  /\ status order' = "processing"
  /\ razorpayPaymentId order' = Some pid
  /\ razorpaySignature order' = Some sig.
Proof.
  intros Hu Ho Hone Hp Hpne Hs Hsne Hid Hfind Hsec Hsig order'.
  split; [| now repeat split].
  unfold verify_payment, isAuthenticated, try_catch, bind, findById,
    createHmac, save, ret.
  rewrite Hu, Ho, Hp, Hs, Hid, Hsec.
  rewrite !truthy_Some by assumption. simpl.
  rewrite Hfind. simpl.
  rewrite <- Hsig, String.eqb_refl. reflexivity.
Qed.

(** C5 (as amended): a verify-payment request of an authenticated user that
    carries non-empty gateway order id, payment id and signature and names an
    existing order, but whose signature differs from the recomputed tag,
    saves the order with paymentStatus failed and answers 400 "Payment
    verification failed": a response of the route body, not its catch
    handler. *)
Theorem verify_payment_mismatch (env : Env) (req : VerifyPaymentRequest)
    (w : World) (u : User) (secret oid pid sig id : string) (order : Order) :
  vp_user req = Some u ->
  vp_razorpay_order_id req = Some oid -> oid <> "" ->
  vp_razorpay_payment_id req = Some pid -> pid <> "" ->
  vp_razorpay_signature req = Some sig -> sig <> "" ->
  vp_orderId req = Some id ->
  orders w !! id = Some order ->
  RAZORPAY_KEY_SECRET env = Some secret ->
  sig <> hmac_sha256_hex secret (oid ++ "|" ++ pid) ->
  verify_payment env req w
  = (status_json 400 (Message false "Payment verification failed"),
     with_order w id (set_paymentStatus failed order))
  /\ paymentStatus_of (snd (verify_payment env req w)) id = Some failed.
Proof.
  intros Hu Ho Hone Hp Hpne Hs Hsne Hid Hfind Hsec Hsig.
  assert (E : verify_payment env req w
              = (status_json 400 (Message false "Payment verification failed"),
                 with_order w id (set_paymentStatus failed order))).
  { unfold verify_payment, isAuthenticated, try_catch, bind, findById,
      createHmac, save, ret.
    rewrite Hu, Ho, Hp, Hs, Hid, Hsec.
    rewrite !truthy_Some by assumption. simpl.
    rewrite Hfind. simpl.
    destruct (String.eqb_spec (hmac_sha256_hex secret (oid ++ "|" ++ pid)) sig)
      as [E | _]; [now symmetry in E | reflexivity]. }
  split; [exact E |].
  rewrite E. unfold paymentStatus_of, with_order. simpl.
  now rewrite lookup_insert_eq.
Qed.

(** X5: verify-payment may be repeated: the same request gives the same answer
    and leaves the world as the first call left it. *)
Lemma verify_payment_repeat (env : Env) (req : VerifyPaymentRequest)
    (w : World) :
  verify_payment env req (snd (verify_payment env req w))
  = verify_payment env req w.
Proof.
  unfold verify_payment, isAuthenticated, try_catch.
  destruct (vp_user req) as [u |]; [| reflexivity].
  destruct (negb (truthy (vp_razorpay_order_id req))
            || negb (truthy (vp_razorpay_payment_id req))
            || negb (truthy (vp_razorpay_signature req))); [reflexivity |].
  unfold bind, findById, createHmac, save, ret, throw.
  destruct (vp_orderId req) as [id |]; [| reflexivity].
  destruct (orders w !! id) as [o |] eqn:Ho; simpl; [| now rewrite Ho].
  destruct (RAZORPAY_KEY_SECRET env) as [k |]; simpl; [| now rewrite Ho].
  match goal with
  | |- context [if ?b then _ else _] => destruct b eqn:E
  end; simpl; rewrite lookup_insert_eq; simpl;
    now rewrite insert_insert_eq.
Qed.

(** ** The webhook *)

Lemma PaymentStatus_eqb_eq (a b : PaymentStatus) :
  PaymentStatus_eqb a b = true <-> a = b.
Proof. destruct a, b; simpl; split; congruence. Qed.

(** The captured case of the switch, on an event that names an order id. *)
Lemma handle_event_captured (b : WebhookBody) (e : PaymentEntity)
    (id : string) (w : World) :
  event b = Some "payment.captured" ->
  payload_payment_entity b = Some e ->
  notes_orderId e = Some id -> id <> "" ->
  handle_event b w
  = (Return (json WebhookOk),
     match orders w !! id with
     | Some o =>
         if PaymentStatus_eqb (paymentStatus o) completed then w
         else with_order w id (mark_captured (entity_id e) o)
     | None => w
     end).
Proof.
  intros Hev Hent Hid Hne.
  unfold handle_event, bind, findById, save, ret.
  rewrite Hent, Hev, Hid. simpl strict_eqb. cbv iota.
  rewrite truthy_Some by assumption. simpl.
  destruct (orders w !! id) as [o |]; [| reflexivity].
  destruct (PaymentStatus_eqb (paymentStatus o) completed); reflexivity.
Qed.

(** The failed case of the switch, on an event that names an order id. *)
Lemma handle_event_failed (b : WebhookBody) (e : PaymentEntity)
    (id : string) (w : World) :
  event b = Some "payment.failed" ->
  payload_payment_entity b = Some e ->
  notes_orderId e = Some id -> id <> "" ->
  handle_event b w
  = (Return (json WebhookOk),
     match orders w !! id with
     | Some o => with_order w id (set_paymentStatus failed o)
     | None => w
     end).
Proof.
  intros Hev Hent Hid Hne.
  unfold handle_event, bind, findById, save, ret.
  rewrite Hent, Hev, Hid. simpl strict_eqb. cbv iota.
  rewrite truthy_Some by assumption. simpl.
  destruct (orders w !! id) as [o |]; reflexivity.
Qed.

(** A delivery that passes the signature check is answered by the switch. *)
Lemma webhook_accepted (env : Env) (req : WebhookRequest) (w : World) :
  webhook_rejects env req = false ->
  webhook env req w = try_catch (handle_event (wh_body req)) webhook_failed w.
Proof. intros H. unfold webhook. now rewrite H. Qed.


(** C4 (as amended): when the webhook secret is configured (a non-empty
    string), the handler compares the signature header with the tag it
    recomputes before it reads the event: a delivery whose header is missing
    or differs from that tag is answered 400 whatever its body holds, and no
    order is read or written; a delivery whose header is the tag goes on to
    the switch. *)
Theorem webhook_checks_signature (env : Env) (req : WebhookRequest)
    (secret : string) (w : World) :
  RAZORPAY_WEBHOOK_SECRET env = Some secret -> secret <> "" ->
  (wh_signature req <> Some (webhook_expected secret req) ->
     webhook env req w
     = (status_json 400 (Text "Webhook signature verification failed"), w))
  /\ (wh_signature req = Some (webhook_expected secret req) ->
        webhook env req w
        = try_catch (handle_event (wh_body req)) webhook_failed w).
Proof.
  intros Hsec Hne. split; intros Hsig.
  - unfold webhook, webhook_rejects. rewrite Hsec.
    rewrite truthy_Some by assumption. simpl toString.
    destruct (wh_signature req) as [s |] eqn:Hs; simpl.
    + destruct (String.eqb_spec s (webhook_expected secret req)) as [E | _];
        [| reflexivity].
      exfalso. apply Hsig. now rewrite E.
    + reflexivity.
  - apply webhook_accepted. unfold webhook_rejects.
    rewrite Hsec, Hsig. simpl. rewrite String.eqb_refl.
    apply andb_false_r.
Qed.

(** C10: with no webhook secret configured the handler makes no signature
    check: whatever the raw bytes and the signature header (absent or
    arbitrary), the delivery is answered by the switch on the parsed event, so
    a payment.captured event completes the order it names and a payment.failed
    event fails it. *)
Theorem webhook_unverified_without_secret (env : Env) (w : World) :
  RAZORPAY_WEBHOOK_SECRET env = None ->
  (forall raw sig b,
     webhook env {| wh_raw := raw; wh_signature := sig; wh_body := b |} w
     = try_catch (handle_event b) webhook_failed w)
  /\ (forall raw sig pid id o,
        id <> "" -> orders w !! id = Some o ->
        paymentStatus_of
          (snd (webhook env
                  {| wh_raw := raw; wh_signature := sig;
                     wh_body :=
                       {| event := Some "payment.captured";
                          payload_payment_entity :=
                            Some {| entity_id := pid;
                                    notes_orderId := Some id |} |} |} w)) id
        = Some completed)
  /\ (forall raw sig pid id o,
        id <> "" -> orders w !! id = Some o ->
        paymentStatus_of
          (snd (webhook env
                  {| wh_raw := raw; wh_signature := sig;
                     wh_body :=
                       {| event := Some "payment.failed";
                          payload_payment_entity :=
                            Some {| entity_id := pid;
                                    notes_orderId := Some id |} |} |} w)) id
        = Some failed).
Proof.
  intros Hsec.
  assert (Hpass : forall req, webhook_rejects env req = false).
  { intros req. unfold webhook_rejects. now rewrite Hsec. }
  split; [| split].
  - intros raw sig b. now rewrite webhook_accepted by apply Hpass.
  - intros raw sig pid id o Hne Ho.
    rewrite webhook_accepted by apply Hpass. unfold try_catch. simpl wh_body.
    erewrite handle_event_captured by (try reflexivity; assumption).
    simpl. rewrite Ho. unfold paymentStatus_of.
    destruct (PaymentStatus_eqb (paymentStatus o) completed) eqn:E.
    + rewrite Ho. simpl. f_equal. now apply PaymentStatus_eqb_eq.
    + unfold with_order. simpl. now rewrite lookup_insert_eq.
  - intros raw sig pid id o Hne Ho.
    rewrite webhook_accepted by apply Hpass. unfold try_catch. simpl wh_body.
    erewrite handle_event_failed by (try reflexivity; assumption).
    simpl. rewrite Ho. unfold paymentStatus_of, with_order. simpl.
    now rewrite lookup_insert_eq.
Qed.

(** X4: any delivery may be repeated: handling it a second time gives the
    same answer and leaves the world as the first handling left it. *)
Lemma webhook_redelivery (env : Env) (req : WebhookRequest) (w : World) :
  webhook env req (snd (webhook env req w)) = webhook env req w.
Proof.
  unfold webhook, try_catch.
  destruct (webhook_rejects env req); [reflexivity |].
  unfold handle_event, bind, findById, save, ret, throw.
  destruct (payload_payment_entity (wh_body req)) as [e |]; [| reflexivity].
  destruct (strict_eqb (event (wh_body req)) (Some "payment.captured")).
  - destruct (truthy (notes_orderId e)); [| reflexivity]. simpl.
    destruct (orders w !! toString (notes_orderId e)) as [o |] eqn:Ho; simpl.
    + destruct (PaymentStatus_eqb (paymentStatus o) completed) eqn:E; simpl.
      * now rewrite Ho, E.
      * now rewrite lookup_insert_eq.
    + now rewrite Ho.
  - destruct (strict_eqb (event (wh_body req)) (Some "payment.failed"));
      [| reflexivity].
    destruct (truthy (notes_orderId e)); [| reflexivity]. simpl.
    destruct (orders w !! toString (notes_orderId e)) as [o |] eqn:Ho; simpl.
    + rewrite lookup_insert_eq. simpl. now rewrite insert_insert_eq.
    + now rewrite Ho.
Qed.

(** ** Terminal states *)







(** ** Order creation *)

Lemma calc_totalAmount_unfold (l : list Item) :
  calc_totalAmount l
  = (calc_subtotal l + calc_shipping (calc_subtotal l)
     + calc_tax (calc_subtotal l))%float.
Proof. reflexivity. Qed.

(** What create-order does with a non-empty cart: the document is validated
    and saved, then the gateway order is requested. *)
Lemma create_order_run (env : Env) (req : CreateOrderRequest) (u : User)
    (i : Item) (l : list Item) (w : World) :
  co_user req = Some u -> co_items req = Some (i :: l) ->
  let total := calc_totalAmount (i :: l) in
  let id := new_ObjectId (orders w) in
  let order := initial_order (new_orderNumber (orders w)) u (i :: l) total
                 (co_shippingAddress req) "razorpay" None in
  let options :=
    {| opt_amount := Math_round (total * 100)%float; opt_currency := "INR";
       opt_receipt := orderNumber order; opt_method := None;
       opt_notes_orderId := id; opt_notes_userId := user_id u;
       opt_notes_userEmail := Some (email u); opt_notes_upiVPA := None |} in
  create_order env req w
  = if Order_validate order then
      let w1 := {| orders := <[id := order]> (orders w);
                   gateway := options :: gateway w |} in
      match razorpay_orders_create options with
      | Some r =>
          (json (OrderCreated id (rzp_id r) (rzp_amount r) (rzp_currency r)
                   (RAZORPAY_KEY_ID env)),
           with_order w1 id (set_razorpayOrderId (Some (rzp_id r)) order))
      | None =>
          (status_json 500
             (Failure "Failed to create order" "razorpay.orders.create failed"),
           w1)
      end
    else
      (status_json 500
         (Failure "Failed to create order" "Order validation failed"), w).
Proof.
  intros Hu Hi total id order options.
  unfold create_order, isAuthenticated, try_catch, bind, new_Order, save_new,
    orders_create, save, ret, throw.
  rewrite Hu, Hi. subst total id order options. simpl.
  destruct (Order_validate _); [| reflexivity].
  simpl. destruct (razorpay_orders_create _); reflexivity.
Qed.

(** What create-upi-payment does with a non-empty cart and a UPI handle. *)
Lemma create_upi_payment_run (env : Env) (req : CreateUpiRequest) (u : User)
    (i : Item) (l : list Item) (w : World) :
  cu_user req = Some u -> cu_items req = Some (i :: l) ->
  truthy (cu_upiVPA req) = true ->
  let total := calc_totalAmount (i :: l) in
  let id := new_ObjectId (orders w) in
  let order := initial_order (new_orderNumber (orders w)) u (i :: l) total
                 (cu_shippingAddress req) "upi" (cu_upiVPA req) in
  let options :=
    {| opt_amount := Math_round (total * 100)%float; opt_currency := "INR";
       opt_receipt := orderNumber order; opt_method := Some "upi";
       opt_notes_orderId := id; opt_notes_userId := user_id u;
       opt_notes_userEmail := None; opt_notes_upiVPA := cu_upiVPA req |} in
  exists r,
    create_upi_payment env req w
    = if Order_validate order then
        let w1 := {| orders := <[id := order]> (orders w);
                     gateway := options :: gateway w |} in
        match razorpay_orders_create options with
        | Some rzp =>
            (r, with_order w1 id
                  (set_razorpayOrderId (Some (rzp_id rzp)) order))
        | None => (r, w1)
        end
      else (r, w).
Proof.
  intros Hu Hi Hvpa total id order options.
  unfold create_upi_payment, isAuthenticated, try_catch, bind, new_Order,
    save_new, orders_create, save, ret, throw.
  rewrite Hu, Hi, Hvpa. subst total id order options. simpl.
  destruct (Order_validate _); [| eexists; reflexivity].
  simpl. destruct (razorpay_orders_create _); eexists; reflexivity.
Qed.

(** C6 (as amended): for a non-empty cart whose order the schema accepts,
    create-order and create-upi-payment persist the order with the line items
    as sent and with totalAmount = (subtotal + shipping) + tax evaluated in
    binary64 floating point: subtotal is the left-to-right sum of
    price * quantity starting from 0, shipping is 0 when 50 < subtotal and 10
    otherwise, tax is subtotal times the double nearest to 0.1.  Recomputing
    that same floating-point expression from the persisted line items gives
    the persisted total again. *)
Theorem totalAmount_persisted (env : Env) (w : World) (u : User) (i : Item)
    (l : list Item) (req : CreateOrderRequest) (ureq : CreateUpiRequest) :
  co_user req = Some u -> co_items req = Some (i :: l) ->
  Order_validate
    (initial_order (new_orderNumber (orders w)) u (i :: l)
       (calc_totalAmount (i :: l)) (co_shippingAddress req) "razorpay" None)
  = true ->
  cu_user ureq = Some u -> cu_items ureq = Some (i :: l) ->
  truthy (cu_upiVPA ureq) = true ->
  Order_validate
    (initial_order (new_orderNumber (orders w)) u (i :: l)
       (calc_totalAmount (i :: l)) (cu_shippingAddress ureq) "upi"
       (cu_upiVPA ureq))
  = true ->
  let subtotal :=
    fold_left (fun sum item => (sum + price item * quantity item)%float)
      (i :: l) 0%float in
  let shipping := (if 50 <? subtotal then 0 else 10)%float in
  let tax := (subtotal * 0.1)%float in
  let total := (subtotal + shipping + tax)%float in
  (exists o,
     orders (snd (create_order env req w)) !! new_ObjectId (orders w) = Some o
     /\ items o = i :: l /\ totalAmount o = total
     /\ calc_totalAmount (items o) = totalAmount o)
  /\ (exists o,
        orders (snd (create_upi_payment env ureq w)) !! new_ObjectId (orders w)
        = Some o
        /\ items o = i :: l /\ totalAmount o = total
        /\ calc_totalAmount (items o) = totalAmount o).
Proof.
  intros Hu Hi Hv Huu Hui Hvpa Hvu subtotal shipping tax total.
  split.
  - rewrite (create_order_run env req u i l w Hu Hi). cbv zeta.
    rewrite Hv. destruct (razorpay_orders_create _); simpl.
    + rewrite lookup_insert_eq. eexists. split; [reflexivity |].
      now repeat split.
    + rewrite lookup_insert_eq. eexists. split; [reflexivity |].
      now repeat split.
  - destruct (create_upi_payment_run env ureq u i l w Huu Hui Hvpa)
      as (r & E).
    rewrite E, Hvu. destruct (razorpay_orders_create _); simpl.
    + rewrite lookup_insert_eq. eexists. split; [reflexivity |].
      now repeat split.
    + rewrite lookup_insert_eq. eexists. split; [reflexivity |].
      now repeat split.
Qed.

(** What create-order checks itself and what it leaves to the schema: a cart
    that is missing, not an array or empty is answered with the 400
    validation message before anything is saved or sent to the gateway; for
    any other cart the route builds the order and saves it.  An order the
    schema refuses is answered 500 with nothing saved and no gateway call; an
    order the schema accepts is saved and a gateway order is requested for
    it. *)
Lemma create_order_validation (env : Env) (req : CreateOrderRequest)
    (u : User) (w : World) :
  co_user req = Some u ->
  (co_items req = None \/ co_items req = Some [] ->
     create_order env req w
     = (status_json 400 (Message false "Cart items are required"), w))
  /\ (forall i l,
        co_items req = Some (i :: l) ->
        let id := new_ObjectId (orders w) in
        let order :=
          initial_order (new_orderNumber (orders w)) u (i :: l)
            (calc_totalAmount (i :: l)) (co_shippingAddress req) "razorpay"
            None in
        (Order_validate order = false ->
           create_order env req w
           = (status_json 500
                (Failure "Failed to create order" "Order validation failed"),
              w))
        /\ (Order_validate order = true ->
              exists o options,
                orders (snd (create_order env req w)) !! id = Some o
                /\ items o = i :: l
                /\ shippingAddress o = co_shippingAddress req
                /\ gateway (snd (create_order env req w))
                   = options :: gateway w
                /\ opt_notes_orderId options = id)).
Proof.
  intros Hu. split.
  - intros Hi. unfold create_order, isAuthenticated, try_catch, ret.
    rewrite Hu. now destruct Hi as [-> | ->].
  - intros i l Hi id order.
    rewrite (create_order_run env req u i l w Hu Hi). cbv zeta.
    fold id. fold order. split; intros Hv; rewrite Hv; [reflexivity |].
    destruct (razorpay_orders_create _); simpl.
    + rewrite lookup_insert_eq. eexists. eexists.
      split; [reflexivity |]. now repeat split.
    + rewrite lookup_insert_eq. eexists. eexists.
      split; [reflexivity |]. now repeat split.
Qed.

(** A quantity that is not positive is below 1, and a negative price is not
    at least 0 (binary64 comparisons). *)
Lemma nonpositive_below_one (q : float) :
  (q <=? 0)%float = true -> (1 <=? q)%float = false.
Proof.
  rewrite !leb_spec.
  destruct (Prim2SF q) as [[] | [] | | [] m e]; vm_compute; congruence.
Qed.

Lemma negative_not_nonnegative (p : float) :
  (p <? 0)%float = true -> (0 <=? p)%float = false.
Proof.
  rewrite ltb_spec, leb_spec.
  destruct (Prim2SF p) as [[] | [] | | [] m e]; vm_compute; congruence.
Qed.

(** The schema of the specification refuses an order with a line item of
    non-positive quantity or negative unit price, and an order whose shipping
    address is missing or has an empty field. *)
Lemma Order_schema_refuses_item (o : Order) (i : Item) :
  In i (items o) ->
  (quantity i <=? 0)%float = true \/ (price i <? 0)%float = true ->
  Order_schema_valid o = false.
Proof.
  intros Hin Hbad. unfold Order_schema_valid.
  apply andb_false_iff. left.
  destruct (forallb _ (items o)) eqn:E; [| reflexivity].
  rewrite forallb_forall in E. specialize (E i Hin).
  apply andb_true_iff in E. destruct E as [Eq Ep].
  destruct Hbad as [Hq | Hp].
  - apply nonpositive_below_one in Hq. congruence.
  - apply negative_not_nonnegative in Hp. congruence.
Qed.

Lemma Order_schema_refuses_address (o : Order) :
  shippingAddress o = None
  \/ (exists a, shippingAddress o = Some a
                /\ (fullName a = "" \/ address a = "" \/ city a = ""
                    \/ state a = "" \/ zipCode a = "" \/ country a = "")) ->
  Order_schema_valid o = false.
Proof.
  intros Hbad. unfold Order_schema_valid.
  apply andb_false_iff. right.
  destruct Hbad as [-> | (a & -> & Hempty)]; [reflexivity |].
  destruct Hempty as [E | [E | [E | [E | [E | E]]]]]; rewrite E; simpl;
    repeat first [reflexivity | apply andb_false_r
                 | rewrite andb_false_r | rewrite andb_false_l].
Qed.

(** C9: create-order rejects invalid input before anything is saved or sent
    to the gateway, where the Order schema makes the checks of the
    specification ([Order_schema_valid]).  For a request of an authenticated
    user whose cart is missing or empty, or holds an item of non-positive
    quantity or negative unit price, or whose shipping address is missing or
    has an empty field, the orders and the calls to the gateway are left as
    they were; the answer is the 400 "Cart items are required" of the route
    for a missing or empty cart, and otherwise the 500 that reports the
    schema's validation error. *)
Theorem create_order_rejects_invalid_input (env : Env)
    (req : CreateOrderRequest) (u : User) (w : World) :
  (forall o, Order_schema_valid o = false -> Order_validate o = false) ->
  co_user req = Some u ->
  co_items req = None \/ co_items req = Some []
  \/ (exists l i,
        co_items req = Some l /\ In i l
        /\ ((quantity i <=? 0)%float = true \/ (price i <? 0)%float = true))
  \/ co_shippingAddress req = None
  \/ (exists a,
        co_shippingAddress req = Some a
        /\ (fullName a = "" \/ address a = "" \/ city a = ""
            \/ state a = "" \/ zipCode a = "" \/ country a = "")) ->
  snd (create_order env req w) = w
  /\ (fst (create_order env req w)
      = status_json 400 (Message false "Cart items are required")
      \/ fst (create_order env req w)
         = status_json 500
             (Failure "Failed to create order" "Order validation failed")).
Proof.
  intros Hschema Hu Hbad.
  destruct (create_order_validation env req u w Hu) as (Hempty & Hcart).
  destruct (co_items req) as [[| i l] |] eqn:Hi;
    try (rewrite Hempty by (first [now left | now right]); split;
         [reflexivity | now left]).
  destruct (Hcart i l eq_refl) as (Hrefused & _).
  rewrite Hrefused; [split; [reflexivity | now right] |].
  apply Hschema.
  destruct Hbad as [H | [H | [(l' & i' & Hl & Hin & Hitem) | Haddr]]];
    try discriminate H.
  - injection Hl as <-.
    now apply (Order_schema_refuses_item _ i').
  - now apply Order_schema_refuses_address.
Qed.

(** ** verify-upi and the payment status *)

(** X3: verify-upi refuses an order whose payment method is not upi. *)
Lemma verify_upi_wrong_method (env : Env) (req : VerifyUpiRequest) (u : User)
    (order : Order) (w : World) :
  vu_user req = Some u -> orders w !! vu_orderId req = Some order ->
  paymentMethod order <> "upi" ->
  verify_upi env req w
  = (status_json 400 (Message false "Invalid payment method for this order"),
     w).
Proof.
  intros Hu Hfind Hm.
  unfold verify_upi, isAuthenticated, try_catch, bind, findById, ret.
  rewrite Hu, Hfind.
  destruct (String.eqb_spec (paymentMethod order) "upi") as [E | _];
    [contradiction | reflexivity].
Qed.

(** X2: verify-upi with the authentic signature completes the order: the
    answer is 200 with the updated order, and the order is saved with
    paymentStatus completed, status processing, and the payment id and the
    signature of the request. *)
Lemma verify_upi_authentic (env : Env) (req : VerifyUpiRequest) (u : User)
    (secret sig : string) (order : Order) (w : World) :
  vu_user req = Some u -> orders w !! vu_orderId req = Some order ->
  paymentMethod order = "upi" ->
  RAZORPAY_KEY_SECRET env = Some secret ->
  vu_razorpay_signature req = Some sig ->
  sig = hmac_sha256_hex secret
          (toString (vu_razorpay_order_id req) ++ "|"
           ++ toString (vu_razorpay_payment_id req)) ->
  let order' := mark_verified (vu_razorpay_payment_id req) (Some sig) order in
  verify_upi env req w
  = (json (Verified "UPI payment verified successfully" (vu_orderId req)
             order'),
     with_order w (vu_orderId req) order')
  /\ paymentStatus_of (snd (verify_upi env req w)) (vu_orderId req)
     = Some completed
  /\ paymentStatus order' = completed
  /\ status order' = "processing"
  /\ razorpayPaymentId order' = vu_razorpay_payment_id req
  /\ razorpaySignature order' = Some sig
  /\ same_order_data order order'.
Proof.
  intros Hu Hfind Hm Hsec Hs Hsig order'.
  assert (E : verify_upi env req w
              = (json (Verified "UPI payment verified successfully"
                         (vu_orderId req) order'),
                 with_order w (vu_orderId req) order')).
  { unfold verify_upi, isAuthenticated, try_catch, bind, findById,
      createHmac, save, ret.
    rewrite Hu, Hfind, Hm, Hsec, Hs. simpl.
    rewrite <- Hsig, String.eqb_refl. reflexivity. }
  split; [exact E |]. split; [| now repeat split].
  rewrite E. unfold paymentStatus_of, with_order. simpl.
  now rewrite lookup_insert_eq.
Qed.

(** verify-upi with any other signature reports the failure and writes
    nothing. *)
Lemma verify_upi_mismatch (env : Env) (req : VerifyUpiRequest) (u : User)
    (secret : string) (order : Order) (w : World) :
  vu_user req = Some u -> orders w !! vu_orderId req = Some order ->
  paymentMethod order = "upi" ->
  RAZORPAY_KEY_SECRET env = Some secret ->
  vu_razorpay_signature req
  <> Some (hmac_sha256_hex secret
             (toString (vu_razorpay_order_id req) ++ "|"
              ++ toString (vu_razorpay_payment_id req))) ->
  verify_upi env req w
  = (status_json 400 (Message false "Payment verification failed"), w).
Proof.
  intros Hu Hfind Hm Hsec Hsig.
  unfold verify_upi, isAuthenticated, try_catch, bind, findById, createHmac,
    save, ret.
  rewrite Hu, Hfind, Hm, Hsec. simpl.
  destruct (vu_razorpay_signature req) as [s |]; [| reflexivity].
  destruct (String.eqb_spec
              (hmac_sha256_hex secret
                 (toString (vu_razorpay_order_id req) ++ "|"
                  ++ toString (vu_razorpay_payment_id req))) s) as [E | _];
    [| reflexivity].
  exfalso. apply Hsig. now rewrite E.
Qed.

(** X1: the status route answers the owner with the four fields and anyone
    else with 403; it never writes. *)
Lemma payment_status_owner_only (req : StatusRequest) (u : User)
    (order : Order) (w : World) :
  st_user req = Some u -> orders w !! st_orderId req = Some order ->
  (user order <> user_id u ->
     payment_status req w
     = (status_json 403 (Message false "Access denied"), w))
  /\ (user order = user_id u ->
        payment_status req w
        = (json (PaymentStatusOf (paymentStatus order) (paymentMethod order)
                   (status order) (totalAmount order)), w)).
Proof.
  intros Hu Hfind.
  unfold payment_status, isAuthenticated, try_catch, bind, findById, ret.
  rewrite Hu, Hfind. split; intros H.
  - destruct (String.eqb_spec (user order) (user_id u)) as [E | _];
      [contradiction | reflexivity].
  - rewrite H, String.eqb_refl. reflexivity.
Qed.

End Properties.

(** * The routes on concrete requests *)

(** The totals of the two end-to-end scenarios of the specification. *)
Example scenario_totals :
  calc_totalAmount [sample_item 100 1] = 110%float
  /\ calc_totalAmount [sample_item 10 1] = 21%float.
Proof. split; reflexivity. Qed.

(** ** C1 *)

(** C1, instance: alice's verify-payment with the gateway's tag completes her
    pending order. *)
Lemma verify_payment_authentic_witness :
  verify_payment sample_env
    (verify_request alice "order_ORD0" "pay_1" sample_signature)
    (sample_world (sample_order "razorpay" pending))
  = (json (Verified "Payment verified successfully" "o1"
             (mark_verified (Some "pay_1") (Some sample_signature)
                (sample_order "razorpay" pending))),
     with_order (sample_world (sample_order "razorpay" pending)) "o1"
       (mark_verified (Some "pay_1") (Some sample_signature)
          (sample_order "razorpay" pending))).
Proof.
  apply (verify_payment_authentic (P := sample_platform) sample_env
           (verify_request alice "order_ORD0" "pay_1" sample_signature)
           (sample_world (sample_order "razorpay" pending))
           alice "key_secret" "order_ORD0" "pay_1" sample_signature "o1"
           (sample_order "razorpay" pending));
    first [reflexivity | discriminate].
Defined.

(** C1, counterexample: the signature is the tag of [order id | payment id]
    and the order exists, but the gateway order id is the empty string: the
    request is refused as incomplete, and the order stays pending. *)
Lemma verify_payment_empty_order_id_refused :
  let req := verify_request alice "" "pay_1"
               (hmac_sha256_hex "key_secret" ("" ++ "|" ++ "pay_1")) in
  let w := sample_world (sample_order "razorpay" pending) in
  RAZORPAY_KEY_SECRET sample_env = Some "key_secret"
  /\ paymentStatus_of w "o1" = Some pending
  /\ verify_payment sample_env req w
     = (status_json 400
          (Message false "Missing payment verification parameters"), w)
  /\ paymentStatus_of (snd (verify_payment sample_env req w)) "o1"
     = Some pending.
Proof. repeat split; vm_compute; reflexivity. Qed.

(** ** C5 *)

(** C5, instance: a forged signature on alice's pending order marks it
    failed. *)
Lemma verify_payment_mismatch_witness :
  verify_payment sample_env
    (verify_request alice "order_ORD0" "pay_1" "forged")
    (sample_world (sample_order "razorpay" pending))
  = (status_json 400 (Message false "Payment verification failed"),
     with_order (sample_world (sample_order "razorpay" pending)) "o1"
       (set_paymentStatus failed (sample_order "razorpay" pending)))
  /\ paymentStatus_of
       (snd (verify_payment sample_env
               (verify_request alice "order_ORD0" "pay_1" "forged")
               (sample_world (sample_order "razorpay" pending)))) "o1"
     = Some failed.
Proof.
  apply (verify_payment_mismatch (P := sample_platform) sample_env
           (verify_request alice "order_ORD0" "pay_1" "forged")
           (sample_world (sample_order "razorpay" pending))
           alice "key_secret" "order_ORD0" "pay_1" "forged" "o1"
           (sample_order "razorpay" pending));
    first [reflexivity | discriminate].
Defined.

(** C5, counterexample: the supplied signature is not the recomputed tag and
    the order exists, but the payment id is the empty string: the request is
    refused as incomplete and the order is not marked failed. *)
Lemma verify_payment_mismatch_not_failed :
  let req := verify_request alice "order_ORD0" "" "forged" in
  let w := sample_world (sample_order "razorpay" pending) in
  strict_eqb (Some (hmac_sha256_hex "key_secret" ("order_ORD0" ++ "|" ++ "")))
    (vp_razorpay_signature req) = false
  /\ verify_payment sample_env req w
     = (status_json 400
          (Message false "Missing payment verification parameters"), w)
  /\ paymentStatus_of (snd (verify_payment sample_env req w)) "o1"
     = Some pending.
Proof. repeat split; vm_compute; reflexivity. Qed.

(** ** C2 *)



(** ** C3 and C8 *)

(** C3, the failing requests: mallory, who does not own the order, calls
    verify-payment on alice's pending order.  With the gateway's tag the
    route answers 200 with the order and completes it; with a forged
    signature it marks alice's order failed.  The status route refuses
    mallory with 403 on the same order. *)
Lemma verify_payment_by_non_owner :
  let w := sample_world (sample_order "razorpay" pending) in
  let req := verify_request mallory "order_ORD0" "pay_1" sample_signature in
  let forged := verify_request mallory "order_ORD0" "pay_1" "forged" in
  user (sample_order "razorpay" pending) <> user_id mallory
  /\ verify_payment sample_env req w
     = (json (Verified "Payment verified successfully" "o1"
                (mark_verified (Some "pay_1") (Some sample_signature)
                   (sample_order "razorpay" pending))),
        with_order w "o1"
          (mark_verified (Some "pay_1") (Some sample_signature)
             (sample_order "razorpay" pending)))
  /\ paymentStatus_of (snd (verify_payment sample_env req w)) "o1"
     = Some completed
  /\ paymentStatus_of (snd (verify_payment sample_env forged w)) "o1"
     = Some failed
  /\ payment_status {| st_user := Some mallory; st_orderId := "o1" |} w
     = (status_json 403 (Message false "Access denied"), w).
Proof.
  split; [discriminate |]. repeat split; vm_compute; reflexivity.
Qed.

(** C8, the failing request: a forged signature on alice's pending UPI
    order.  verify-upi answers 400 and leaves the order pending, where
    verify-payment marks the order failed on the same mismatch. *)
Lemma verify_upi_mismatch_leaves_pending :
  let w := sample_world (sample_order "upi" pending) in
  verify_upi sample_env
    (upi_verify_request alice "order_ORD0" "pay_1" "forged") w
  = (status_json 400 (Message false "Payment verification failed"), w)
  /\ paymentStatus_of
       (snd (verify_upi sample_env
               (upi_verify_request alice "order_ORD0" "pay_1" "forged") w))
       "o1"
     = Some pending
  /\ paymentStatus_of
       (snd (verify_payment sample_env
               (verify_request alice "order_ORD0" "pay_1" "forged") w)) "o1"
     = Some failed.
Proof. repeat split; vm_compute; reflexivity. Qed.

(** ** C7 and C10 *)


(** C10, instance: with no webhook secret, an unsigned payment.captured
    delivery completes alice's pending order. *)
Lemma webhook_unverified_without_secret_witness :
  paymentStatus_of
    (snd (webhook sample_env_no_hook
            (delivery "unsigned" None (sample_event "payment.captured"))
            (sample_world (sample_order "razorpay" pending)))) "o1"
  = Some completed.
Proof.
  destruct (webhook_unverified_without_secret (P := sample_platform)
              sample_env_no_hook
              (sample_world (sample_order "razorpay" pending)) eq_refl)
    as (_ & Hcaptured & _).
  apply (Hcaptured "unsigned" None (Some "pay_1") "o1"
           (sample_order "razorpay" pending));
    first [reflexivity | discriminate].
Defined.

(** ** C4 *)

(** C4, instance: with the webhook secret configured, a delivery with a
    wrong signature header is answered 400 and nothing is written. *)
Lemma webhook_checks_signature_witness :
  webhook sample_env
    (delivery "bytes" (Some "wrong") (sample_event "payment.captured"))
    (sample_world (sample_order "razorpay" pending))
  = (status_json 400 (Text "Webhook signature verification failed"),
     sample_world (sample_order "razorpay" pending)).
Proof.
  apply (webhook_checks_signature (P := sample_platform) sample_env
           (delivery "bytes" (Some "wrong") (sample_event "payment.captured"))
           "hook_secret" (sample_world (sample_order "razorpay" pending)));
    first [reflexivity | discriminate].
Defined.

(** C4, counterexample.  With no webhook secret configured, an unsigned
    delivery is not checked at all: it is dispatched and completes the order.
    With the secret configured the check is made on the serialised parsed
    body, not on the bytes received: of two deliveries with the same
    (indented) raw bytes, the one signed over those bytes is refused and the
    one signed over the compact serialisation is dispatched. *)
Lemma webhook_signature_not_over_raw_bytes :
  let w := sample_world (sample_order "razorpay" pending) in
  let b := sample_event "payment.captured" in
  let raw := "{ event: payment.captured, entity: { id: pay_1, orderId: o1 } }" in
  webhook sample_env_no_hook (delivery raw None b) w
  = (json WebhookOk,
     with_order w "o1" (mark_captured (Some "pay_1")
                          (sample_order "razorpay" pending)))
  /\ strict_eqb (Some raw) (Some (JSON_stringify b)) = false
  /\ webhook sample_env
       (delivery raw (Some (hmac_sha256_hex "hook_secret" raw)) b) w
     = (status_json 400 (Text "Webhook signature verification failed"), w)
  /\ webhook sample_env
       (delivery raw
          (Some (hmac_sha256_hex "hook_secret" (JSON_stringify b))) b) w
     = (json WebhookOk,
        with_order w "o1" (mark_captured (Some "pay_1")
                             (sample_order "razorpay" pending))).
Proof. repeat split; vm_compute; reflexivity. Qed.

(** ** C6 and C9 *)

(** C6, instance: the first scenario of the specification, one item of price
    100 and quantity 1, persists the total 110 on both routes. *)
Lemma totalAmount_persisted_witness :
  (exists o,
     orders (snd (create_order sample_env
                    (cart_request [sample_item 100 1]) empty_world))
       !! "oid0" = Some o
     /\ items o = [sample_item 100 1] /\ totalAmount o = 110%float
     /\ calc_totalAmount (items o) = totalAmount o)
  /\ (exists o,
        orders (snd (create_upi_payment sample_env
                       (upi_cart_request [sample_item 100 1]) empty_world))
          !! "oid0" = Some o
        /\ items o = [sample_item 100 1] /\ totalAmount o = 110%float
        /\ calc_totalAmount (items o) = totalAmount o).
Proof.
  apply (totalAmount_persisted (P := sample_platform) sample_env empty_world
           alice (sample_item 100 1) []
           (cart_request [sample_item 100 1])
           (upi_cart_request [sample_item 100 1]));
    reflexivity.
Defined.

(** C6, counterexample: the persisted total is not the exact total.  For one
    item of price 1 and quantity 1 (both exact doubles) the exact total is
    111/10, and the persisted double stands for another rational.  For one
    item of price 2.45 the persisted total is 12.694999999999999, which is
    not even the double nearest to the exact 12.695, and the gateway is asked
    for 1269 minor units. *)
Lemma totalAmount_drifts :
  let w1 := snd (create_order sample_env (cart_request [sample_item 1 1])
                   empty_world) in
  let w2 := snd (create_order sample_env (cart_request [sample_item 2.45 1])
                   empty_world) in
  (totalAmount <$> orders w1 !! "oid0")
  = Some (calc_totalAmount [sample_item 1 1])
  /\ float_to_Q (calc_totalAmount [sample_item 1 1])
     = Some (6248744482976563 # 562949953421312)
  /\ Qeq_bool (6248744482976563 # 562949953421312)
       (spec_totalAmount [(1, 1)%Q]) = false
  /\ Qeq_bool (spec_totalAmount [(1, 1)%Q]) (111 # 10) = true
  /\ (totalAmount <$> orders w2 !! "oid0") = Some 12.694999999999999%float
  /\ (12.694999999999999 =? 12.695)%float = false
  /\ Qeq_bool (spec_totalAmount [(245 # 100, 1)%Q]) (12695 # 1000) = true
  /\ map opt_amount (gateway w2) = [1269%float].
Proof. repeat split; vm_compute; reflexivity. Qed.

(** C9, instance: a cart with an item of negative unit price, with a complete
    shipping address, is refused by the schema: nothing is saved and the
    gateway is not called. *)
Lemma create_order_rejects_invalid_input_witness :
  let req := cart_request [sample_item 100 1; sample_item (-5) 1] in
  snd (create_order sample_env req empty_world) = empty_world
  /\ (fst (create_order sample_env req empty_world)
      = status_json 400 (Message false "Cart items are required")
      \/ fst (create_order sample_env req empty_world)
         = status_json 500
             (Failure "Failed to create order" "Order validation failed")).
Proof.
  apply (create_order_rejects_invalid_input (P := sample_platform) sample_env
           (cart_request [sample_item 100 1; sample_item (-5) 1]) alice
           empty_world (fun o H => H) eq_refl).
  right. right. left.
  exists [sample_item 100 1; sample_item (-5) 1], (sample_item (-5) 1).
  split; [reflexivity |]. split; [right; left; reflexivity |].
  right. reflexivity.
Defined.

(** ** Further instances *)

(** The status route on alice's pending order: mallory is refused, alice is
    answered. *)
Lemma payment_status_owner_only_witness :
  payment_status {| st_user := Some mallory; st_orderId := "o1" |}
    (sample_world (sample_order "razorpay" pending))
  = (status_json 403 (Message false "Access denied"),
     sample_world (sample_order "razorpay" pending))
  /\ payment_status {| st_user := Some alice; st_orderId := "o1" |}
       (sample_world (sample_order "razorpay" pending))
     = (json (PaymentStatusOf pending "razorpay" "pending" 110%float),
        sample_world (sample_order "razorpay" pending)).
Proof.
  split.
  - apply (payment_status_owner_only
             {| st_user := Some mallory; st_orderId := "o1" |} mallory
             (sample_order "razorpay" pending)
             (sample_world (sample_order "razorpay" pending))
             eq_refl eq_refl).
    discriminate.
  - apply (payment_status_owner_only
             {| st_user := Some alice; st_orderId := "o1" |} alice
             (sample_order "razorpay" pending)
             (sample_world (sample_order "razorpay" pending))
             eq_refl eq_refl).
    reflexivity.
Defined.

(** verify-upi with the gateway's tag completes alice's pending UPI order. *)
Lemma verify_upi_authentic_witness :
  let order' := mark_verified (Some "pay_1") (Some sample_signature)
                  (sample_order "upi" pending) in
  verify_upi sample_env
    (upi_verify_request alice "order_ORD0" "pay_1" sample_signature)
    (sample_world (sample_order "upi" pending))
  = (json (Verified "UPI payment verified successfully" "o1" order'),
     with_order (sample_world (sample_order "upi" pending)) "o1" order')
  /\ paymentStatus_of
       (snd (verify_upi sample_env
               (upi_verify_request alice "order_ORD0" "pay_1"
                  sample_signature)
               (sample_world (sample_order "upi" pending)))) "o1"
     = Some completed
  /\ paymentStatus order' = completed
  /\ status order' = "processing"
  /\ razorpayPaymentId order' = Some "pay_1"
  /\ razorpaySignature order' = Some sample_signature
  /\ same_order_data (sample_order "upi" pending) order'.
Proof.
  exact (verify_upi_authentic (P := sample_platform) sample_env
           (upi_verify_request alice "order_ORD0" "pay_1" sample_signature)
           alice "key_secret" sample_signature (sample_order "upi" pending)
           (sample_world (sample_order "upi" pending))
           eq_refl eq_refl eq_refl eq_refl eq_refl eq_refl).
Defined.

(** verify-upi refuses alice's card order. *)
Lemma verify_upi_wrong_method_witness :
  verify_upi sample_env
    (upi_verify_request alice "order_ORD0" "pay_1" sample_signature)
    (sample_world (sample_order "razorpay" pending))
  = (status_json 400 (Message false "Invalid payment method for this order"),
     sample_world (sample_order "razorpay" pending)).
Proof.
  apply (verify_upi_wrong_method (P := sample_platform) sample_env
           (upi_verify_request alice "order_ORD0" "pay_1" sample_signature)
           alice (sample_order "razorpay" pending)
           (sample_world (sample_order "razorpay" pending)) eq_refl eq_refl).
  discriminate.
Defined.

(** * Further properties of the payment routes *)

Section Frame.

Context {P : Platform}.

(** A world that differs from [w] at most in the order [id], which keeps its
    order data. *)
Lemma with_order_frame (w : World) (id : string) (o o' : Order) :
  orders w !! id = Some o -> same_order_data o o' ->
  gateway (with_order w id o') = gateway w
  /\ dom (orders (with_order w id o')) = dom (orders w)
  /\ (forall id', id' <> id ->
        orders (with_order w id o') !! id' = orders w !! id')
  /\ (forall id' o0, orders w !! id' = Some o0 ->
        exists o1, orders (with_order w id o') !! id' = Some o1
                   /\ same_order_data o0 o1).
Proof.
  intros Ho Hsame. unfold with_order. simpl. repeat split.
  - rewrite dom_insert_L. apply subseteq_union_1_L, singleton_subseteq_l.
    apply elem_of_dom. now exists o.
  - intros id' Hne. now rewrite lookup_insert_ne.
  - intros id' o0 Ho0. rewrite lookup_insert. case_decide.
    + subst id'. assert (o0 = o) as -> by congruence.
      exists o'. now split.
    + exists o0. split; [first [reflexivity | assumption] |]. now repeat split.
Qed.

(** verify-payment writes at most the order it names, and only its payment
    fields. *)
Lemma verify_payment_shape (env : Env) (req : VerifyPaymentRequest)
    (w : World) :
  snd (verify_payment env req w) = w
  \/ exists id o o',
       vp_orderId req = Some id /\ orders w !! id = Some o
       /\ same_order_data o o'
       /\ snd (verify_payment env req w) = with_order w id o'.
Proof.
  unfold verify_payment, isAuthenticated, try_catch.
  destruct (vp_user req) as [u |]; [| now left].
  destruct (negb (truthy (vp_razorpay_order_id req))
            || negb (truthy (vp_razorpay_payment_id req))
            || negb (truthy (vp_razorpay_signature req))); [now left |].
  unfold bind, findById, createHmac, save, ret, throw.
  destruct (vp_orderId req) as [id |]; [| now left].
  destruct (orders w !! id) as [o |] eqn:Ho; simpl; [| now left].
  destruct (RAZORPAY_KEY_SECRET env) as [k |]; simpl; [| now left].
  match goal with
  | |- context [if ?b then _ else _] => destruct b
  end; simpl; right; exists id, o; eexists;
    (split; [reflexivity |]); (split; [first [reflexivity | assumption] |]);
    (split; [| reflexivity]); now repeat split.
Qed.

(** verify-upi writes at most the order it names, and only its payment
    fields. *)
Lemma verify_upi_shape (env : Env) (req : VerifyUpiRequest) (w : World) :
  snd (verify_upi env req w) = w
  \/ exists o o',
       orders w !! vu_orderId req = Some o /\ same_order_data o o'
       /\ snd (verify_upi env req w) = with_order w (vu_orderId req) o'.
Proof.
  unfold verify_upi, isAuthenticated, try_catch.
  destruct (vu_user req) as [u |]; [| now left].
  unfold bind, findById, createHmac, save, ret, throw.
  destruct (orders w !! vu_orderId req) as [o |] eqn:Ho; simpl;
    [| now left].
  destruct (negb (String.eqb (paymentMethod o) "upi")); [now left |].
  destruct (RAZORPAY_KEY_SECRET env) as [k |]; simpl; [| now left].
  match goal with
  | |- context [if ?b then _ else _] => destruct b
  end; simpl; [| now left].
  right. exists o. eexists. split; [first [reflexivity | assumption] |].
  split; [| reflexivity]. now repeat split.
Qed.

(** The webhook writes at most the order the delivery names, and only its
    payment fields. *)
Lemma webhook_shape (env : Env) (req : WebhookRequest) (w : World) :
  snd (webhook env req w) = w
  \/ exists id o o',
       webhook_target req = Some id /\ orders w !! id = Some o
       /\ same_order_data o o'
       /\ snd (webhook env req w) = with_order w id o'.
Proof.
  unfold webhook, try_catch, webhook_target.
  destruct (webhook_rejects env req); [now left |].
  unfold handle_event, bind, findById, save, ret, throw.
  destruct (payload_payment_entity (wh_body req)) as [e |]; [| now left].
  destruct (strict_eqb (event (wh_body req)) (Some "payment.captured")).
  - destruct (notes_orderId e) as [id |]; [| now left].
    destruct (truthy (Some id)); [| now left]. simpl.
    destruct (orders w !! id) as [o |] eqn:Ho; simpl; [| now left].
    destruct (PaymentStatus_eqb (paymentStatus o) completed); simpl;
      [now left |].
    right. exists id, o. eexists. split; [reflexivity |].
    split; [first [reflexivity | assumption] |]. split; [| reflexivity]. now repeat split.
  - destruct (strict_eqb (event (wh_body req)) (Some "payment.failed"));
      [| now left].
    destruct (notes_orderId e) as [id |]; [| now left].
    destruct (truthy (Some id)); [| now left]. simpl.
    destruct (orders w !! id) as [o |] eqn:Ho; simpl; [| now left].
    right. exists id, o. eexists. split; [reflexivity |].
    split; [first [reflexivity | assumption] |]. split; [| reflexivity]. now repeat split.
Qed.

(** The two shapes above, read as a frame condition. *)
Lemma frame_of_shape (w w' : World) (target : option string) :
  (w' = w
   \/ exists id o o',
        target = Some id /\ orders w !! id = Some o /\ same_order_data o o'
        /\ w' = with_order w id o') ->
  gateway w' = gateway w
  /\ dom (orders w') = dom (orders w)
  /\ (forall id, target <> Some id -> orders w' !! id = orders w !! id)
  /\ (forall id o, orders w !! id = Some o ->
        exists o', orders w' !! id = Some o' /\ same_order_data o o').
Proof.
  intros [-> | (id & o & o' & Ht & Ho & Hsame & ->)].
  - repeat split; try reflexivity.
    intros id o Ho. exists o. split; [assumption |]. now repeat split.
  - destruct (with_order_frame w id o o' Ho Hsame) as (Hg & Hd & Hf & Hk).
    repeat split; try assumption.
    intros id' Hne. apply Hf. intros ->. now apply Hne.
Qed.

(** X6: verify-payment, verify-upi and the webhook never rewrite an order's
    data: whatever the request, every stored order is still stored afterwards
    with the same order number, owner, line items, totalAmount, shipping
    address, payment method, UPI handle and gateway order id. *)
Theorem verification_keeps_order_data (env : Env) (w : World) (id : string)
    (o : Order) :
  orders w !! id = Some o ->
  (forall req, exists o',
      orders (snd (verify_payment env req w)) !! id = Some o'
      /\ same_order_data o o')
  /\ (forall req, exists o',
        orders (snd (verify_upi env req w)) !! id = Some o'
        /\ same_order_data o o')
  /\ (forall req, exists o',
        orders (snd (webhook env req w)) !! id = Some o'
        /\ same_order_data o o').
Proof.
  intros Ho. split; [| split]; intros req.
  - apply (frame_of_shape w _ (vp_orderId req)); [| exact Ho].
    destruct (verify_payment_shape env req w) as [E | (i & a & b & H)];
      [now left | right; now exists i, a, b].
  - apply (frame_of_shape w _ (Some (vu_orderId req))); [| exact Ho].
    destruct (verify_upi_shape env req w) as [E | (a & b & H)];
      [now left | right; now exists (vu_orderId req), a, b].
  - apply (frame_of_shape w _ (webhook_target req)); [| exact Ho].
    destruct (webhook_shape env req w) as [E | (i & a & b & H)];
      [now left | right; now exists i, a, b].
Qed.


End Frame.

(** * Refusals and ignored requests *)

(** Uses [s <> ""] to decide the emptiness test on [s] in the goal. *)
Ltac nonempty H :=
  match type of H with
  | ?s <> "" =>
      destruct (String.eqb_spec s "") as [? | _]; [contradiction |]
  end.

Section Refusals.

Context {P : Platform}.

(** X8: the 401 of the [isAuthenticated] middleware.  Each of the five
    payment routes behind it answers a request without a session with that
    401 and changes nothing, whatever else the request holds; and a request
    with a session is never answered 401 by these routes. *)
Theorem unauthenticated_iff_401 (env : Env) (w : World) :
  (forall req,
      (co_user req = None -> create_order env req w = (unauthenticated, w))
      /\ (code (fst (create_order env req w)) = 401 -> co_user req = None))
  /\ (forall req,
        (cu_user req = None ->
           create_upi_payment env req w = (unauthenticated, w))
        /\ (code (fst (create_upi_payment env req w)) = 401 ->
              cu_user req = None))
  /\ (forall req,
        (vp_user req = None -> verify_payment env req w = (unauthenticated, w))
        /\ (code (fst (verify_payment env req w)) = 401 ->
              vp_user req = None))
  /\ (forall req,
        (vu_user req = None -> verify_upi env req w = (unauthenticated, w))
        /\ (code (fst (verify_upi env req w)) = 401 -> vu_user req = None))
  /\ (forall req,
        (st_user req = None -> payment_status req w = (unauthenticated, w))
        /\ (code (fst (payment_status req w)) = 401 -> st_user req = None)).
Proof.
  split; [| split; [| split; [| split]]]; intros req.
  - unfold create_order, isAuthenticated.
    destruct (co_user req) as [u |] eqn:Hu; [| now split].
    split; [discriminate |]. intros H. exfalso. revert H.
    unfold try_catch, bind, new_Order, save_new, orders_create, save, ret,
      throw.
    destruct (co_items req) as [[| i l] |]; simpl; try discriminate.
    destruct (Order_validate _); simpl; [| discriminate].
    destruct (razorpay_orders_create _); simpl; discriminate.
  - unfold create_upi_payment, isAuthenticated.
    destruct (cu_user req) as [u |] eqn:Hu; [| now split].
    split; [discriminate |]. intros H. exfalso. revert H.
    unfold try_catch, bind, new_Order, save_new, orders_create, save, ret,
      throw.
    destruct (cu_items req) as [[| i l] |]; simpl; try discriminate.
    destruct (truthy (cu_upiVPA req)); simpl; [| discriminate].
    destruct (Order_validate _); simpl; [| discriminate].
    destruct (razorpay_orders_create _); simpl; discriminate.
  - unfold verify_payment, isAuthenticated.
    destruct (vp_user req) as [u |] eqn:Hu; [| now split].
    split; [discriminate |]. intros H. exfalso. revert H.
    unfold try_catch, bind, findById, createHmac, save, ret, throw.
    destruct (negb (truthy (vp_razorpay_order_id req))
              || negb (truthy (vp_razorpay_payment_id req))
              || negb (truthy (vp_razorpay_signature req)));
      [discriminate |].
    destruct (vp_orderId req) as [id |]; [| discriminate].
    destruct (orders w !! id) as [o |]; simpl; [| discriminate].
    destruct (RAZORPAY_KEY_SECRET env) as [k |]; simpl; [| discriminate].
    match goal with
    | |- context [if ?b then _ else _] => destruct b
    end; discriminate.
  - unfold verify_upi, isAuthenticated.
    destruct (vu_user req) as [u |] eqn:Hu; [| now split].
    split; [discriminate |]. intros H. exfalso. revert H.
    unfold try_catch, bind, findById, createHmac, save, ret, throw.
    destruct (orders w !! vu_orderId req) as [o |]; simpl; [| discriminate].
    destruct (negb (String.eqb (paymentMethod o) "upi")); [discriminate |].
    destruct (RAZORPAY_KEY_SECRET env) as [k |]; simpl; [| discriminate].
    match goal with
    | |- context [if ?b then _ else _] => destruct b
    end; discriminate.
  - unfold payment_status, isAuthenticated.
    destruct (st_user req) as [u |] eqn:Hu; [| now split].
    split; [discriminate |]. intros H. exfalso. revert H.
    unfold try_catch, bind, findById, ret.
    destruct (orders w !! st_orderId req) as [o |]; simpl; [| discriminate].
    destruct (negb (String.eqb (user o) (user_id u))); discriminate.
Qed.


(** X10: verification reads the key secret from the environment with no
    fallback: when RAZORPAY_KEY_SECRET is unset, verify-payment on an existing
    order and verify-upi on an existing UPI order end in the 500 answer of
    the catch handler whatever the signature, and the order is left as it
    was. *)
Theorem verification_needs_key_secret (env : Env) (w : World) (id : string)
    (o : Order) (u : User) :
  RAZORPAY_KEY_SECRET env = None ->
  orders w !! id = Some o ->
  (forall oid pid sig,
      oid <> "" -> pid <> "" -> sig <> "" ->
      exists e,
        verify_payment env
          {| vp_user := Some u; vp_razorpay_order_id := Some oid;
             vp_razorpay_payment_id := Some pid;
             vp_razorpay_signature := Some sig; vp_orderId := Some id |} w
        = (status_json 500 (Failure "Failed to verify payment" e), w))
  /\ (paymentMethod o = "upi" ->
      forall pid oid sig,
        exists e,
          verify_upi env
            {| vu_user := Some u; vu_orderId := id;
               vu_razorpay_payment_id := pid; vu_razorpay_order_id := oid;
               vu_razorpay_signature := sig |} w
          = (status_json 500 (Failure "Failed to verify UPI payment" e), w)).
Proof.
  intros Hsec Ho. split.
  - intros oid pid sig Hone Hpne Hsne.
    unfold verify_payment, isAuthenticated, try_catch, bind, findById,
      createHmac, ret, throw.
    simpl. nonempty Hone. nonempty Hpne. nonempty Hsne. simpl.
    rewrite Ho, Hsec. eexists. reflexivity.
  - intros Hm pid oid sig.
    unfold verify_upi, isAuthenticated, try_catch, bind, findById,
      createHmac, ret, throw.
    simpl. rewrite Ho, Hm, Hsec. simpl. eexists. reflexivity.
Qed.


End Refusals.

(** * Creating an order, then verifying it *)

Section Checkout.

Context {P : Platform}.

(** create-upi-payment on a non-empty cart with a UPI handle, with its
    answer. *)
Lemma create_upi_payment_answer (env : Env) (req : CreateUpiRequest)
    (u : User) (i : Item) (l : list Item) (w : World) :
  cu_user req = Some u -> cu_items req = Some (i :: l) ->
  truthy (cu_upiVPA req) = true ->
  let total := calc_totalAmount (i :: l) in
  let id := new_ObjectId (orders w) in
  let order := initial_order (new_orderNumber (orders w)) u (i :: l) total
                 (cu_shippingAddress req) "upi" (cu_upiVPA req) in
  let options :=
    {| opt_amount := Math_round (total * 100)%float; opt_currency := "INR";
       opt_receipt := orderNumber order; opt_method := Some "upi";
       opt_notes_orderId := id; opt_notes_userId := user_id u;
       opt_notes_userEmail := None; opt_notes_upiVPA := cu_upiVPA req |} in
  create_upi_payment env req w
  = if Order_validate order then
      let w1 := {| orders := <[id := order]> (orders w);
                   gateway := options :: gateway w |} in
      match razorpay_orders_create options with
      | Some r =>
          (json (UpiCreated id (orderNumber order) (rzp_id r)
                   ("upi://pay?pa=" ++ toString (cu_upiVPA req)
                    ++ "&pn=ProductLab&am=" ++ Number_toString total
                    ++ "&cu=INR&tn=Order " ++ orderNumber order)
                   total (RAZORPAY_KEY_ID env)
                   "UPI payment initiated. Please complete payment on your UPI app."),
           with_order w1 id (set_razorpayOrderId (Some (rzp_id r)) order))
      | None =>
          (status_json 500
             (Failure "Failed to create UPI payment"
                "razorpay.orders.create failed"), w1)
      end
    else
      (status_json 500
         (Failure "Failed to create UPI payment" "Order validation failed"),
       w).
Proof.
  intros Hu Hi Hvpa total id order options.
  unfold create_upi_payment, isAuthenticated, try_catch, bind, new_Order,
    save_new, orders_create, save, ret, throw.
  rewrite Hu, Hi, Hvpa. subst total id order options. simpl.
  destruct (Order_validate _); [| reflexivity].
  simpl. destruct (razorpay_orders_create _); reflexivity.
Qed.

(** X12: the partial failure of order creation.  When the gateway rejects
    the order request that create-order or create-upi-payment sends for a
    cart, the route answers 500, but the order it saved before the call stays
    in the collection: pending, with fulfilment status pending and no gateway
    order id. *)
Theorem gateway_failure_leaves_pending_order (env : Env) (w : World)
    (u : User) (i : Item) (l : list Item) (a : option Address) :
  let id := new_ObjectId (orders w) in
  let total := calc_totalAmount (i :: l) in
  (forall order,
      order = initial_order (new_orderNumber (orders w)) u (i :: l) total a
                "razorpay" None ->
      Order_validate order = true ->
      razorpay_orders_create
        {| opt_amount := Math_round (total * 100)%float;
           opt_currency := "INR"; opt_receipt := orderNumber order;
           opt_method := None; opt_notes_orderId := id;
           opt_notes_userId := user_id u;
           opt_notes_userEmail := Some (email u);
           opt_notes_upiVPA := None |} = None ->
      let r := create_order env
                 {| co_user := Some u; co_items := Some (i :: l);
                    co_shippingAddress := a |} w in
      code (fst r) = 500
      /\ orders (snd r) !! id = Some order
      /\ paymentStatus order = pending /\ status order = "pending"
      /\ razorpayOrderId order = None)
  /\ (forall vpa order,
        vpa <> "" ->
        order = initial_order (new_orderNumber (orders w)) u (i :: l) total a
                  "upi" (Some vpa) ->
        Order_validate order = true ->
        razorpay_orders_create
          {| opt_amount := Math_round (total * 100)%float;
             opt_currency := "INR"; opt_receipt := orderNumber order;
             opt_method := Some "upi"; opt_notes_orderId := id;
             opt_notes_userId := user_id u; opt_notes_userEmail := None;
             opt_notes_upiVPA := Some vpa |} = None ->
        let r := create_upi_payment env
                   {| cu_user := Some u; cu_items := Some (i :: l);
                      cu_shippingAddress := a; cu_upiVPA := Some vpa |} w in
        code (fst r) = 500
        /\ orders (snd r) !! id = Some order
        /\ paymentStatus order = pending /\ status order = "pending"
        /\ razorpayOrderId order = None).
Proof.
  intros id total. split.
  - intros order -> Hv Hdown. cbv zeta.
    rewrite (create_order_run env
               {| co_user := Some u; co_items := Some (i :: l);
                  co_shippingAddress := a |} u i l w eq_refl eq_refl).
    cbv zeta.
    simpl co_shippingAddress. fold total. fold id. rewrite Hv, Hdown. simpl.
    rewrite lookup_insert_eq. now repeat split.
  - intros vpa order Hvpa -> Hv Hdown. cbv zeta.
    rewrite (create_upi_payment_answer env
               {| cu_user := Some u; cu_items := Some (i :: l);
                  cu_shippingAddress := a; cu_upiVPA := Some vpa |}
               u i l w eq_refl eq_refl (truthy_Some vpa Hvpa)).
    cbv zeta. simpl cu_shippingAddress. simpl cu_upiVPA. fold total. fold id.
    rewrite Hv, Hdown. simpl.
    rewrite lookup_insert_eq. now repeat split.
Qed.

(** X13: what create-upi-payment refuses as invalid.  A cart that is
    missing, not an array or empty is answered 400 "Cart items are required"
    even when the UPI handle is missing too; a non-empty cart with a missing
    or empty handle is answered 400 "UPI VPA is required"; in both cases
    nothing is saved and the gateway is not called.  No other request of an
    authenticated user is answered 400: quantities, prices and the address
    are not looked at by the route. *)
Theorem create_upi_payment_guards (env : Env) (w : World) (u : User)
    (a : option Address) :
  (forall l vpa,
      l = None \/ l = Some [] ->
      create_upi_payment env
        {| cu_user := Some u; cu_items := l; cu_shippingAddress := a;
           cu_upiVPA := vpa |} w
      = (status_json 400 (Message false "Cart items are required"), w))
  /\ (forall i l vpa,
        truthy vpa = false ->
        create_upi_payment env
          {| cu_user := Some u; cu_items := Some (i :: l);
             cu_shippingAddress := a; cu_upiVPA := vpa |} w
        = (status_json 400 (Message false "UPI VPA is required"), w))
  /\ (forall i l vpa,
        truthy vpa = true ->
        code (fst (create_upi_payment env
                     {| cu_user := Some u; cu_items := Some (i :: l);
                        cu_shippingAddress := a; cu_upiVPA := vpa |} w))
        <> 400).
Proof.
  split; [| split].
  - intros l vpa [-> | ->]; reflexivity.
  - intros i l vpa Hvpa.
    unfold create_upi_payment, isAuthenticated, try_catch, ret. simpl.
    now rewrite Hvpa.
  - intros i l vpa Hvpa.
    rewrite (create_upi_payment_answer env
               {| cu_user := Some u; cu_items := Some (i :: l);
                  cu_shippingAddress := a; cu_upiVPA := vpa |}
               u i l w eq_refl eq_refl Hvpa).
    cbv zeta. destruct (Order_validate _); [| discriminate].
    destruct (razorpay_orders_create _); discriminate.
Qed.

(** X14: creating an order and then verifying it.  When create-order has
    answered 200 with the order id and the gateway order id, a verify-payment
    by the same user for that order id, carrying the gateway order id, a
    payment id and the HMAC tag of the two under the configured key secret,
    answers 200 with the order: completed, processing, owned by the user, with
    the line items of the cart and the totalAmount computed at creation, the
    gateway order id stored at creation and the payment id just verified. *)
Theorem created_order_verifies (env : Env) (req : CreateOrderRequest)
    (w w1 : World) (u : User) (id gid currency secret pid : string)
    (amount : float) (key : option string) :
  co_user req = Some u ->
  create_order env req w
  = (json (OrderCreated id gid amount currency key), w1) ->
  RAZORPAY_KEY_SECRET env = Some secret ->
  gid <> "" -> pid <> "" ->
  hmac_sha256_hex secret (gid ++ "|" ++ pid) <> "" ->
  exists l o,
    co_items req = Some l
    /\ verify_payment env
         {| vp_user := Some u; vp_razorpay_order_id := Some gid;
            vp_razorpay_payment_id := Some pid;
            vp_razorpay_signature :=
              Some (hmac_sha256_hex secret (gid ++ "|" ++ pid));
            vp_orderId := Some id |} w1
       = (json (Verified "Payment verified successfully" id o),
          with_order w1 id o)
    /\ paymentStatus o = completed /\ status o = "processing"
    /\ user o = user_id u /\ items o = l
    /\ totalAmount o = calc_totalAmount l
    /\ razorpayOrderId o = Some gid /\ razorpayPaymentId o = Some pid.
Proof.
  intros Hu Hcreated Hsec Hg Hp Hs.
  destruct (co_items req) as [[| i l] |] eqn:Hi.
  - unfold create_order, isAuthenticated, try_catch, ret in Hcreated.
    rewrite Hu, Hi in Hcreated. discriminate Hcreated.
  - rewrite (create_order_run env req u i l w Hu Hi) in Hcreated.
    cbv zeta in Hcreated.
    destruct (Order_validate _); [| discriminate Hcreated].
    destruct (razorpay_orders_create _) as [r |]; [| discriminate Hcreated].
    injection Hcreated as <- <- _ _ _ <-.
    exists (i :: l). eexists. split; [reflexivity |]. split.
    + unfold verify_payment, isAuthenticated, try_catch, bind, findById,
        createHmac, save, ret.
      simpl. nonempty Hg. nonempty Hp. nonempty Hs. simpl.
      rewrite lookup_insert_eq, Hsec. simpl.
      rewrite String.eqb_refl. reflexivity.
    + now repeat split.
  - unfold create_order, isAuthenticated, try_catch, ret in Hcreated.
    rewrite Hu, Hi in Hcreated. discriminate Hcreated.
Qed.

(** X15: the two checkout paths do not mix at verify-upi.  An order that
    create-upi-payment has created is completed by a verify-upi carrying the
    HMAC tag of its gateway order id and a payment id; an order that
    create-order has created is refused by verify-upi with 400 "Invalid
    payment method for this order", whatever the signature, and is left
    pending. *)
Theorem verify_upi_after_creation (env : Env) (w w1 : World) (u : User)
    (id gid secret pid : string) :
  RAZORPAY_KEY_SECRET env = Some secret ->
  (forall req num link total key msg,
      cu_user req = Some u ->
      create_upi_payment env req w
      = (json (UpiCreated id num gid link total key msg), w1) ->
      paymentStatus_of
        (snd (verify_upi env
                {| vu_user := Some u; vu_orderId := id;
                   vu_razorpay_payment_id := Some pid;
                   vu_razorpay_order_id := Some gid;
                   vu_razorpay_signature :=
                     Some (hmac_sha256_hex secret (gid ++ "|" ++ pid)) |}
                w1)) id
      = Some completed)
  /\ (forall req amount currency key vreq,
        co_user req = Some u ->
        create_order env req w
        = (json (OrderCreated id gid amount currency key), w1) ->
        vu_user vreq = Some u -> vu_orderId vreq = id ->
        verify_upi env vreq w1
        = (status_json 400
             (Message false "Invalid payment method for this order"), w1)
        /\ paymentStatus_of w1 id = Some pending).
Proof.
  intros Hsec. split.
  - intros req num link total key msg Hu Hcreated.
    destruct (cu_items req) as [[| i l] |] eqn:Hi;
      try (unfold create_upi_payment, isAuthenticated, try_catch, ret
             in Hcreated;
           rewrite Hu, Hi in Hcreated; discriminate Hcreated).
    destruct (truthy (cu_upiVPA req)) eqn:Hvpa.
    + rewrite (create_upi_payment_answer env req u i l w Hu Hi Hvpa)
        in Hcreated.
      cbv zeta in Hcreated.
      destruct (Order_validate _); [| discriminate Hcreated].
      destruct (razorpay_orders_create _) as [r |];
        [| discriminate Hcreated].
      injection Hcreated as <- _ <- _ _ _ _ <-.
      unfold verify_upi, isAuthenticated, try_catch, bind, findById,
        createHmac, save, ret.
      simpl. rewrite lookup_insert_eq. simpl. rewrite Hsec. simpl.
      rewrite String.eqb_refl. unfold paymentStatus_of. simpl.
      now rewrite lookup_insert_eq.
    + unfold create_upi_payment, isAuthenticated, try_catch, ret
        in Hcreated.
      rewrite Hu, Hi, Hvpa in Hcreated. discriminate Hcreated.
  - intros req amount currency key vreq Hu Hcreated Hvu Hvid.
    destruct (co_items req) as [[| i l] |] eqn:Hi;
      try (unfold create_order, isAuthenticated, try_catch, ret
             in Hcreated;
           rewrite Hu, Hi in Hcreated; discriminate Hcreated).
    rewrite (create_order_run env req u i l w Hu Hi) in Hcreated.
    cbv zeta in Hcreated.
    destruct (Order_validate _); [| discriminate Hcreated].
    destruct (razorpay_orders_create _) as [r |]; [| discriminate Hcreated].
    injection Hcreated as <- _ _ _ _ <-.
    split.
    + unfold verify_upi, isAuthenticated, try_catch, bind, findById, ret.
      rewrite Hvu, Hvid. simpl. now rewrite lookup_insert_eq.
    + unfold paymentStatus_of. simpl. now rewrite lookup_insert_eq.
Qed.

End Checkout.

(** * The UPI verification page against verify-upi *)

Section UpiPage.

Context {P : Platform}.

Variable other_routes : string -> World -> Response * World.

(** X16: the UPI verification page cannot verify a payment.  The page sends
    the fixed text manual_verification in place of a signature.  For an order
    id that is one path segment, and unless the HMAC tag of the gateway order
    id and the payment id under the configured key secret is that very text,
    [paymentAPI.verifyUpiPayment] throws, whatever the session and the stored
    orders, and the orders are left as they were. *)
Theorem upi_page_never_verifies (env : Env) (session : option User)
    (orderId paymentId razorpayOrderId : string) (w : World) :
  path_segment orderId = true ->
  (forall secret,
      RAZORPAY_KEY_SECRET env = Some secret ->
      hmac_sha256_hex secret (razorpayOrderId ++ "|" ++ paymentId)
      <> "manual_verification") ->
  exists message,
    verifyUpiPayment other_routes env session orderId
      (upi_page_data paymentId razorpayOrderId) w
    = (Throw message, w).
Proof.
  intros Hsegment Htag.
  unfold verifyUpiPayment. rewrite Hsegment.
  unfold verify_upi, isAuthenticated, try_catch, bind, findById, createHmac,
    save, ret, throw.
  simpl.
  destruct session as [u |]; [| eexists; reflexivity].
  destruct (orders w !! orderId) as [o |]; simpl; [| eexists; reflexivity].
  destruct (negb (String.eqb (paymentMethod o) "upi"));
    [eexists; reflexivity |].
  destruct (RAZORPAY_KEY_SECRET env) as [k |]; simpl;
    [| eexists; reflexivity].
  destruct (String.eqb_spec
              (hmac_sha256_hex k (razorpayOrderId ++ "|" ++ paymentId))
              "manual_verification") as [E | _].
  - now apply (Htag k) in E.
  - eexists. reflexivity.
Qed.

End UpiPage.

(** * The cart *)

Lemma cart_find_None (p : string) (c : list CartItem) :
  cart_find p c = None <-> ~ In p (cart_ids c).
Proof.
  unfold cart_find, cart_ids. induction c as [| x c IH]; simpl.
  - split; [intros _ [] | reflexivity].
  - destruct (String.eqb_spec (cart_productId x) p) as [E | N].
    + split; [discriminate | intros H; exfalso; apply H; now left].
    + rewrite IH. split; [intros H [E | I]; [contradiction | now apply H]
                         | intros H I; apply H; now right].
Qed.

Lemma cart_ids_removeFromCart (p : string) (c : list CartItem) :
  cart_ids (removeFromCart p c)
  = List.filter (fun id => negb (String.eqb id p)) (cart_ids c).
Proof.
  unfold cart_ids, removeFromCart. induction c as [| x c IH]; simpl;
    [reflexivity |].
  destruct (String.eqb (cart_productId x) p); simpl; now rewrite IH.
Qed.

Lemma cart_ids_addToCart (p : string) (q : option float) (v : option string)
    (c : list CartItem) :
  cart_ids (addToCart p q v c)
  = match cart_find p c with
    | Some _ => cart_ids c
    | None => (cart_ids c ++ [p])%list
    end.
Proof.
  unfold addToCart. destruct (cart_find p c); unfold cart_ids.
  - rewrite List.map_map. apply List.map_ext. intros x.
    now destruct (String.eqb (cart_productId x) p).
  - now rewrite List.map_app.
Qed.

Lemma cart_ids_updateCartQuantity (p : string) (q : float)
    (c : list CartItem) :
  (q <=? 0)%float = false ->
  cart_ids (updateCartQuantity p q c) = cart_ids c.
Proof.
  intros Hq. unfold updateCartQuantity. rewrite Hq. unfold cart_ids.
  rewrite List.map_map. apply List.map_ext. intros x.
  now destruct (String.eqb (cart_productId x) p).
Qed.

Lemma cart_step_NoDup (c : list CartItem) (a : CartAction) :
  List.NoDup (cart_ids c) -> List.NoDup (cart_ids (cart_step c a)).
Proof.
  intros Hc. destruct a as [p q v | p | p q |]; simpl.
  - rewrite cart_ids_addToCart.
    destruct (cart_find p c) eqn:Hf; [assumption |].
    apply cart_find_None in Hf.
    apply List.NoDup_app; [assumption | repeat constructor; intros [] |].
    intros x Hx [<- | []]. contradiction.
  - rewrite cart_ids_removeFromCart. now apply List.NoDup_filter.
  - unfold updateCartQuantity. destruct (q <=? 0)%float eqn:Hq.
    + rewrite cart_ids_removeFromCart. now apply List.NoDup_filter.
    + pose proof (cart_ids_updateCartQuantity p q c Hq) as E.
      unfold updateCartQuantity in E. rewrite Hq in E. now rewrite E.
  - constructor.
Qed.

(** X17: the cart never lists a product twice.  Each call of addToCart,
    removeFromCart, updateCartQuantity or clearCart keeps the product ids of
    the cart distinct, so they are distinct after every session of calls from
    the empty cart. *)
Theorem cart_products_distinct (session : list CartAction) :
  List.NoDup (cart_ids (cart_after session)).
Proof.
  unfold cart_after.
  assert (H : forall c, List.NoDup (cart_ids c) ->
                        List.NoDup (cart_ids (fold_left cart_step session c))).
  { induction session as [| a s IH]; intros c Hc; simpl; [assumption |].
    apply IH. now apply cart_step_NoDup. }
  apply H. constructor.
Qed.

(** Looking up a product in a cart whose items were rewritten in place by a
    function that keeps their product ids. *)
Lemma cart_find_map (f : CartItem -> CartItem) (p : string)
    (c : list CartItem) :
  (forall x, cart_productId (f x) = cart_productId x) ->
  cart_find p (map f c) = f <$> cart_find p c.
Proof.
  intros Hf. unfold cart_find. induction c as [| x c IH]; simpl;
    [reflexivity |].
  rewrite Hf. now destruct (String.eqb (cart_productId x) p).
Qed.

Lemma cart_find_Some_id (p : string) (c : list CartItem) (x : CartItem) :
  cart_find p c = Some x -> cart_productId x = p.
Proof.
  intros H. apply List.find_some in H as [_ H]. now apply String.eqb_eq.
Qed.

Lemma cart_find_app (p : string) (c : list CartItem) (x : CartItem) :
  cart_find p (c ++ [x])
  = match cart_find p c with
    | Some y => Some y
    | None => if String.eqb (cart_productId x) p then Some x else None
    end.
Proof.
  unfold cart_find. induction c as [| y c IH]; simpl; [reflexivity |].
  now destruct (String.eqb (cart_productId y) p).
Qed.

Lemma cart_find_removeFromCart (p p' : string) (c : list CartItem) :
  cart_find p' (removeFromCart p c)
  = if String.eqb p' p then None else cart_find p' c.
Proof.
  unfold cart_find, removeFromCart. induction c as [| x c IH]; simpl.
  - now destruct (String.eqb p' p).
  - destruct (String.eqb_spec (cart_productId x) p) as [E | N]; simpl.
    + rewrite IH. destruct (String.eqb_spec p' p) as [E' | N'];
        [reflexivity |].
      destruct (String.eqb_spec (cart_productId x) p') as [E2 | _];
        [congruence | reflexivity].
    + destruct (String.eqb_spec (cart_productId x) p') as [E2 | N2].
      * destruct (String.eqb_spec p' p) as [E' | _];
          [congruence | reflexivity].
      * exact IH.
Qed.

(** X18: adding to the cart, then looking the product up.  After
    addToCart(productId, quantity, variant) the cart holds the product with
    the variant just given and with the quantity given (1 when none is given)
    if the product was not in the cart, or the old quantity plus it if the
    product was; the entry of every other product is as before. *)
Theorem addToCart_lookup (p : string) (q : option float) (v : option string)
    (c : list CartItem) :
  let added := match q with Some n => n | None => 1%float end in
  cart_find p (addToCart p q v c)
  = Some {| cart_productId := p;
            cart_quantity :=
              match cart_find p c with
              | Some old => (cart_quantity old + added)%float
              | None => added
              end;
            cart_variant := v |}
  /\ forall p', p' <> p -> cart_find p' (addToCart p q v c) = cart_find p' c.
Proof.
  intros added. unfold addToCart. fold added.
  destruct (cart_find p c) as [old |] eqn:Hf.
  - split.
    + rewrite cart_find_map, Hf.
      * simpl. rewrite (cart_find_Some_id p c old Hf), String.eqb_refl.
        reflexivity.
      * intros x. now destruct (String.eqb (cart_productId x) p).
    + intros p' Hne. rewrite cart_find_map.
      * destruct (cart_find p' c) as [y |] eqn:Hy; [| reflexivity].
        simpl. rewrite (cart_find_Some_id p' c y Hy).
        destruct (String.eqb_spec p' p) as [E | _];
          [contradiction | reflexivity].
      * intros x. now destruct (String.eqb (cart_productId x) p).
  - split.
    + rewrite cart_find_app, Hf. simpl. now rewrite String.eqb_refl.
    + intros p' Hne. rewrite cart_find_app. simpl.
      destruct (cart_find p' c); [reflexivity |].
      destruct (String.eqb_spec p p') as [E | _];
        [now symmetry in E | reflexivity].
Qed.

(** X19: removing from the cart.  After removeFromCart(productId) the
    product is not in the cart, and the entry of every other product is as
    before; removing a product that is not in the cart changes nothing, so
    removing a product right after adding it to a cart that did not hold it
    gives that cart back. *)
Theorem removeFromCart_lookup (p : string) (c : list CartItem) :
  cart_find p (removeFromCart p c) = None
  /\ (forall p', p' <> p ->
        cart_find p' (removeFromCart p c) = cart_find p' c)
  /\ (cart_find p c = None -> removeFromCart p c = c)
  /\ (cart_find p c = None ->
      forall q v, removeFromCart p (addToCart p q v c) = c).
Proof.
  assert (Hid : forall c0, cart_find p c0 = None -> removeFromCart p c0 = c0).
  { intros c0. unfold cart_find, removeFromCart.
    induction c0 as [| x c0 IH]; simpl; [reflexivity |].
    destruct (String.eqb (cart_productId x) p); simpl; [discriminate |].
    intros H. now rewrite IH. }
  split; [| split; [| split]].
  - rewrite cart_find_removeFromCart. now rewrite String.eqb_refl.
  - intros p' Hne. rewrite cart_find_removeFromCart.
    destruct (String.eqb_spec p' p) as [E | _]; [contradiction | reflexivity].
  - apply Hid.
  - intros Hf q v. unfold addToCart. rewrite Hf.
    unfold removeFromCart. rewrite List.filter_app. simpl.
    rewrite String.eqb_refl. simpl. rewrite app_nil_r.
    now apply Hid.
Qed.

(** X20: changing a quantity in the cart.  updateCartQuantity(productId,
    quantity) with a quantity that is at most 0 removes the product; with any
    other quantity it keeps the products of the cart and their order, writes
    the quantity on the entry of the product and keeps its variant, and leaves
    the entry of every other product as before. *)
Theorem updateCartQuantity_lookup (p : string) (q : float)
    (c : list CartItem) :
  ((q <=? 0)%float = true ->
     cart_find p (updateCartQuantity p q c) = None
     /\ forall p', p' <> p ->
          cart_find p' (updateCartQuantity p q c) = cart_find p' c)
  /\ ((q <=? 0)%float = false ->
      cart_ids (updateCartQuantity p q c) = cart_ids c
      /\ cart_find p (updateCartQuantity p q c)
         = (fun old => {| cart_productId := p; cart_quantity := q;
                          cart_variant := cart_variant old |})
           <$> cart_find p c
      /\ forall p', p' <> p ->
           cart_find p' (updateCartQuantity p q c) = cart_find p' c).
Proof.
  split; intros Hq.
  - unfold updateCartQuantity. rewrite Hq. split.
    + rewrite cart_find_removeFromCart. now rewrite String.eqb_refl.
    + intros p' Hne. rewrite cart_find_removeFromCart.
      destruct (String.eqb_spec p' p) as [E | _];
        [contradiction | reflexivity].
  - split; [now apply cart_ids_updateCartQuantity |].
    unfold updateCartQuantity. rewrite Hq. split.
    + rewrite cart_find_map.
      * destruct (cart_find p c) as [old |] eqn:Hf; [| reflexivity].
        simpl. rewrite (cart_find_Some_id p c old Hf), String.eqb_refl.
        reflexivity.
      * intros x. now destruct (String.eqb (cart_productId x) p).
    + intros p' Hne. rewrite cart_find_map.
      * destruct (cart_find p' c) as [y |] eqn:Hy; [| reflexivity].
        simpl. rewrite (cart_find_Some_id p' c y Hy).
        destruct (String.eqb_spec p' p) as [E | _];
          [contradiction | reflexivity].
      * intros x. now destruct (String.eqb (cart_productId x) p).
Qed.

(** * Instances of the further properties *)

(** X6, instance: alice's pending order keeps its data through a
    verify-payment that completes it. *)
Lemma verification_keeps_order_data_witness :
  exists o',
    orders (snd (verify_payment sample_env
                   (verify_request alice "order_ORD0" "pay_1"
                      sample_signature)
                   (sample_world (sample_order "razorpay" pending))))
      !! "o1" = Some o'
    /\ same_order_data (sample_order "razorpay" pending) o'.
Proof.
  destruct (verification_keeps_order_data (P := sample_platform) sample_env
              (sample_world (sample_order "razorpay" pending)) "o1"
              (sample_order "razorpay" pending) eq_refl) as (Hv & _).
  exact (Hv (verify_request alice "order_ORD0" "pay_1" sample_signature)).
Defined.


(** X10, instance: the gateway's own tag is of no use without the key
    secret. *)
Lemma verification_needs_key_secret_witness :
  exists e,
    verify_payment sample_env_no_key
      (verify_request alice "order_ORD0" "pay_1" sample_signature)
      (sample_world (sample_order "razorpay" pending))
    = (status_json 500 (Failure "Failed to verify payment" e),
       sample_world (sample_order "razorpay" pending)).
Proof.
  destruct (verification_needs_key_secret (P := sample_platform)
              sample_env_no_key
              (sample_world (sample_order "razorpay" pending)) "o1"
              (sample_order "razorpay" pending) alice eq_refl eq_refl)
    as (Hv & _).
  apply (Hv "order_ORD0" "pay_1" sample_signature); discriminate.
Defined.


(** X12, instance: with the gateway rejecting the request, alice's order is saved
    pending and the answer is 500. *)
Lemma gateway_failure_leaves_pending_order_witness :
  code (fst (create_order (P := offline_platform) sample_env
               (cart_request [sample_item 100 1]) empty_world)) = 500
  /\ paymentStatus_of
       (snd (create_order (P := offline_platform) sample_env
               (cart_request [sample_item 100 1]) empty_world)) "oid0"
     = Some pending.
Proof.
  destruct (gateway_failure_leaves_pending_order (P := offline_platform)
              sample_env empty_world alice (sample_item 100 1) []
              (Some sample_address)) as (Hcard & _).
  destruct (Hcard _ eq_refl eq_refl eq_refl) as (Hcode & Hsaved & _).
  split; [exact Hcode |].
  exact (f_equal (fmap paymentStatus) Hsaved).
Defined.

(** X14, instance: alice creates an order for one item of price 100 and
    verifies it with the gateway's tag; the order is completed with the total
    110. *)
Lemma created_order_verifies_witness :
  let w1 := snd (create_order sample_env (cart_request [sample_item 100 1])
                   empty_world) in
  exists o,
    orders (snd (verify_payment sample_env
                   {| vp_user := Some alice;
                      vp_razorpay_order_id := Some "order_ORD0";
                      vp_razorpay_payment_id := Some "pay_1";
                      vp_razorpay_signature := Some sample_signature;
                      vp_orderId := Some "oid0" |} w1)) !! "oid0"
    = Some o
    /\ paymentStatus o = completed /\ totalAmount o = 110%float.
Proof.
  intros w1.
  destruct (created_order_verifies (P := sample_platform) sample_env
              (cart_request [sample_item 100 1]) empty_world w1 alice
              "oid0" "order_ORD0" "INR" "key_secret" "pay_1" 11000%float
              (Some "rzp_test_key") eq_refl eq_refl eq_refl
              ltac:(discriminate) ltac:(discriminate) ltac:(discriminate))
    as (l & o & Hl & Hverified & Hpaid & _ & _ & _ & Htotal & _).
  exists o. split; [| split; [exact Hpaid |]].
  - etransitivity;
      [exact (f_equal (fun r => orders (snd r) !! "oid0") Hverified)
      | apply lookup_insert_eq].
  - rewrite Htotal. injection Hl as <-. reflexivity.
Defined.

(** X15, instance: alice's UPI order is completed by verify-upi with the
    gateway's tag. *)
Lemma verify_upi_after_creation_witness :
  let w1 := snd (create_upi_payment sample_env
                   (upi_cart_request [sample_item 100 1]) empty_world) in
  paymentStatus_of
    (snd (verify_upi sample_env
            {| vu_user := Some alice; vu_orderId := "oid0";
               vu_razorpay_payment_id := Some "pay_1";
               vu_razorpay_order_id := Some "order_ORD0";
               vu_razorpay_signature := Some sample_signature |} w1)) "oid0"
  = Some completed.
Proof.
  intros w1.
  destruct (verify_upi_after_creation (P := sample_platform) sample_env
              empty_world w1 alice "oid0" "order_ORD0" "key_secret" "pay_1"
              eq_refl) as (Hupi & _).
  exact (Hupi (upi_cart_request [sample_item 100 1]) _ _ _ _ _ eq_refl
           eq_refl).
Defined.

(** X16, instance: the page's request for alice's pending UPI order
    throws. *)
Lemma upi_page_never_verifies_witness :
  exists message,
    verifyUpiPayment (fun _ w => (status_json 404 (Text "Not Found"), w))
      sample_env (Some alice) "o1" (upi_page_data "pay_1" "order_ORD0")
      (sample_world (sample_order "upi" pending))
    = (Throw message, sample_world (sample_order "upi" pending)).
Proof.
  apply (upi_page_never_verifies (P := sample_platform)
           (fun _ w => (status_json 404 (Text "Not Found"), w)) sample_env
           (Some alice) "o1" "pay_1" "order_ORD0"
           (sample_world (sample_order "upi" pending)) eq_refl).
  intros secret _. discriminate.
Defined.

(** * Verification and the webhook on the same order *)

Section Convergence.

Context {P : Platform}.

(** verify-payment with the authentic signature, on any stored order. *)
Lemma verify_payment_match (env : Env) (u : User)
    (secret oid pid id : string) (o : Order) (w : World) :
  RAZORPAY_KEY_SECRET env = Some secret ->
  oid <> "" -> pid <> "" -> hmac_sha256_hex secret (oid ++ "|" ++ pid) <> "" ->
  orders w !! id = Some o ->
  snd (verify_payment env
         {| vp_user := Some u; vp_razorpay_order_id := Some oid;
            vp_razorpay_payment_id := Some pid;
            vp_razorpay_signature :=
              Some (hmac_sha256_hex secret (oid ++ "|" ++ pid));
            vp_orderId := Some id |} w)
  = with_order w id
      (mark_verified (Some pid)
         (Some (hmac_sha256_hex secret (oid ++ "|" ++ pid))) o).
Proof.
  intros Hsec Ho Hp Hs Hfind.
  unfold verify_payment, isAuthenticated, try_catch, bind, findById,
    createHmac, save, ret.
  simpl. nonempty Ho. nonempty Hp. nonempty Hs. simpl.
  rewrite Hfind, Hsec. simpl. now rewrite String.eqb_refl.
Qed.

(** An accepted payment.captured delivery, on any stored order. *)
Lemma webhook_captured_world (env : Env) (req : WebhookRequest)
    (e : PaymentEntity) (id : string) (o : Order) (w : World) :
  webhook_rejects env req = false ->
  event (wh_body req) = Some "payment.captured" ->
  payload_payment_entity (wh_body req) = Some e ->
  notes_orderId e = Some id -> id <> "" ->
  orders w !! id = Some o ->
  snd (webhook env req w)
  = if PaymentStatus_eqb (paymentStatus o) completed then w
    else with_order w id (mark_captured (entity_id e) o).
Proof.
  intros Hpass Hev Hent Hid Hne Hfind.
  rewrite webhook_accepted by assumption. unfold try_catch.
  rewrite (handle_event_captured _ e id w Hev Hent Hid Hne).
  simpl. now rewrite Hfind.
Qed.

(** X21: client verification and the captured webhook converge.  For a
    stored order, a verify-payment with the authentic signature and an
    accepted payment.captured delivery naming the same order, handled one
    after the other, lead to the same world whichever comes first: the order
    is stored completed and processing, with the payment id and the signature
    of the verification, and with its order data as before. *)
Theorem verify_and_capture_converge (env : Env) (u : User)
    (secret oid pid id : string) (o : Order) (req : WebhookRequest)
    (e : PaymentEntity) (w : World) :
  RAZORPAY_KEY_SECRET env = Some secret ->
  oid <> "" -> pid <> "" -> hmac_sha256_hex secret (oid ++ "|" ++ pid) <> "" ->
  orders w !! id = Some o ->
  webhook_rejects env req = false ->
  event (wh_body req) = Some "payment.captured" ->
  payload_payment_entity (wh_body req) = Some e ->
  notes_orderId e = Some id -> id <> "" ->
  let vreq :=
    {| vp_user := Some u; vp_razorpay_order_id := Some oid;
       vp_razorpay_payment_id := Some pid;
       vp_razorpay_signature :=
         Some (hmac_sha256_hex secret (oid ++ "|" ++ pid));
       vp_orderId := Some id |} in
  exists o',
    snd (webhook env req (snd (verify_payment env vreq w)))
    = with_order w id o'
    /\ snd (verify_payment env vreq (snd (webhook env req w)))
       = with_order w id o'
    /\ orders (with_order w id o') !! id = Some o'
    /\ paymentStatus o' = completed
    /\ status o' = "processing"
    /\ razorpayPaymentId o' = Some pid
    /\ razorpaySignature o'
       = Some (hmac_sha256_hex secret (oid ++ "|" ++ pid))
    /\ same_order_data o o'.
Proof.
  intros Hsec Ho Hp Hs Hfind Hpass Hev Hent Hid Hne vreq.
  subst vreq.
  exists (mark_verified (Some pid)
            (Some (hmac_sha256_hex secret (oid ++ "|" ++ pid))) o).
  split; [| split; [| split; [apply lookup_insert_eq | now repeat split]]].
  - rewrite (verify_payment_match env u secret oid pid id o w)
      by assumption.
    rewrite (webhook_captured_world env req e id
               (mark_verified (Some pid)
                  (Some (hmac_sha256_hex secret (oid ++ "|" ++ pid))) o));
      try assumption; [reflexivity | apply lookup_insert_eq].
  - rewrite (webhook_captured_world env req e id o w) by assumption.
    destruct (PaymentStatus_eqb (paymentStatus o) completed).
    + now apply verify_payment_match.
    + rewrite (verify_payment_match env u secret oid pid id
                 (mark_captured (entity_id e) o));
        try assumption; [| apply lookup_insert_eq].
      unfold with_order. simpl. now rewrite insert_insert_eq.
Qed.

(** X22: a payment.failed delivery that passes the signature check marks
    the stored order it names failed whatever its payment status was, and
    changes nothing else of it: the fulfilment status, the payment id and the
    signature it had stay. *)
Theorem webhook_failed_event (env : Env) (req : WebhookRequest)
    (e : PaymentEntity) (id : string) (o : Order) (w : World) :
  webhook_rejects env req = false ->
  event (wh_body req) = Some "payment.failed" ->
  payload_payment_entity (wh_body req) = Some e ->
  notes_orderId e = Some id -> id <> "" ->
  orders w !! id = Some o ->
  exists o',
    webhook env req w = (json WebhookOk, with_order w id o')
    /\ paymentStatus o' = failed /\ status o' = status o
    /\ razorpayPaymentId o' = razorpayPaymentId o
    /\ razorpaySignature o' = razorpaySignature o
    /\ same_order_data o o'.
Proof.
  intros Hpass Hev Hent Hid Hne Hfind.
  exists (set_paymentStatus failed o). split.
  - rewrite webhook_accepted by assumption. unfold try_catch.
    rewrite (handle_event_failed _ e id w Hev Hent Hid Hne).
    now rewrite Hfind.
  - now repeat split.
Qed.

(** X23: what order creation adds.  For a non-empty cart whose order the
    schema accepts, and a new id that is not in use, create-order and
    create-upi-payment add exactly one order, under the new id, leave every
    stored order as it was, and call the gateway exactly once, whether the
    gateway accepts or rejects. *)
Theorem creation_frame (env : Env) (w : World) (u : User) (i : Item)
    (l : list Item) (a : option Address) (vpa : string) :
  orders w !! new_ObjectId (orders w) = None ->
  Order_validate
    (initial_order (new_orderNumber (orders w)) u (i :: l)
       (calc_totalAmount (i :: l)) a "razorpay" None) = true ->
  Order_validate
    (initial_order (new_orderNumber (orders w)) u (i :: l)
       (calc_totalAmount (i :: l)) a "upi" (Some vpa)) = true ->
  vpa <> "" ->
  let card :=
    snd (create_order env
           {| co_user := Some u; co_items := Some (i :: l);
              co_shippingAddress := a |} w) in
  let upi :=
    snd (create_upi_payment env
           {| cu_user := Some u; cu_items := Some (i :: l);
              cu_shippingAddress := a; cu_upiVPA := Some vpa |} w) in
  (dom (orders card) = {[ new_ObjectId (orders w) ]} ∪ dom (orders w)
   /\ (forall id o, orders w !! id = Some o -> orders card !! id = Some o)
   /\ length (gateway card) = S (length (gateway w)))
  /\ (dom (orders upi) = {[ new_ObjectId (orders w) ]} ∪ dom (orders w)
      /\ (forall id o, orders w !! id = Some o -> orders upi !! id = Some o)
      /\ length (gateway upi) = S (length (gateway w))).
Proof.
  intros Hfresh Hcard Hupi Hvpa card upi. subst card upi. split.
  - rewrite (create_order_run env
               {| co_user := Some u; co_items := Some (i :: l);
                  co_shippingAddress := a |} u i l w eq_refl eq_refl).
    cbv zeta. simpl co_shippingAddress. rewrite Hcard.
    destruct (razorpay_orders_create _); simpl.
    + rewrite insert_insert_eq, dom_insert_L. repeat split.
      intros id o Ho. rewrite lookup_insert_ne; [assumption |].
      intros <-. congruence.
    + rewrite dom_insert_L. repeat split.
      intros id o Ho. rewrite lookup_insert_ne; [assumption |].
      intros <-. congruence.
  - rewrite (create_upi_payment_answer env
               {| cu_user := Some u; cu_items := Some (i :: l);
                  cu_shippingAddress := a; cu_upiVPA := Some vpa |}
               u i l w eq_refl eq_refl (truthy_Some vpa Hvpa)).
    cbv zeta. simpl cu_shippingAddress. simpl cu_upiVPA. rewrite Hupi.
    destruct (razorpay_orders_create _); simpl.
    + rewrite insert_insert_eq, dom_insert_L. repeat split.
      intros id o Ho. rewrite lookup_insert_ne; [assumption |].
      intros <-. congruence.
    + rewrite dom_insert_L. repeat split.
      intros id o Ho. rewrite lookup_insert_ne; [assumption |].
      intros <-. congruence.
Qed.

End Convergence.

(** X21, instance: alice's verification and the captured webhook reach the
    same world in both orders, with her order completed. *)
Lemma verify_and_capture_converge_witness :
  let w := sample_world (sample_order "razorpay" pending) in
  let vreq := verify_request alice "order_ORD0" "pay_1" sample_signature in
  let hook := signed_delivery (sample_event "payment.captured") in
  exists o',
    snd (webhook sample_env hook (snd (verify_payment sample_env vreq w)))
    = with_order w "o1" o'
    /\ snd (verify_payment sample_env vreq (snd (webhook sample_env hook w)))
       = with_order w "o1" o'
    /\ paymentStatus o' = completed
    /\ razorpayPaymentId o' = Some "pay_1".
Proof.
  intros w vreq hook.
  destruct (verify_and_capture_converge (P := sample_platform) sample_env
              alice "key_secret" "order_ORD0" "pay_1" "o1"
              (sample_order "razorpay" pending) hook
              {| entity_id := Some "pay_1"; notes_orderId := Some "o1" |} w
              eq_refl ltac:(discriminate) ltac:(discriminate)
              ltac:(discriminate) eq_refl eq_refl eq_refl eq_refl eq_refl
              ltac:(discriminate))
    as (o' & Hfirst & Hsecond & _ & Hpaid & _ & Hpid & _).
  exists o'. split; [exact Hfirst |]. split; [exact Hsecond |].
  split; [exact Hpaid | exact Hpid].
Defined.

(** X22, instance: a signed payment.failed delivery on alice's completed
    order. *)
Lemma webhook_failed_event_witness :
  exists o',
    webhook sample_env (signed_delivery (sample_event "payment.failed"))
      (sample_world (sample_order "razorpay" completed))
    = (json WebhookOk,
       with_order (sample_world (sample_order "razorpay" completed)) "o1" o')
    /\ paymentStatus o' = failed /\ status o' = "processing".
Proof.
  destruct (webhook_failed_event (P := sample_platform) sample_env
              (signed_delivery (sample_event "payment.failed"))
              {| entity_id := Some "pay_1"; notes_orderId := Some "o1" |}
              "o1" (sample_order "razorpay" completed)
              (sample_world (sample_order "razorpay" completed))
              eq_refl eq_refl eq_refl eq_refl ltac:(discriminate) eq_refl)
    as (o' & Hrun & Hfailed & Hstatus & _).
  exists o'. split; [exact Hrun |]. split; [exact Hfailed | exact Hstatus].
Defined.

(** X23, instance: alice's first order calls the gateway once. *)
Lemma creation_frame_witness :
  length (gateway (snd (create_order sample_env
                          (cart_request [sample_item 100 1]) empty_world)))
  = 1
  /\ length (gateway (snd (create_upi_payment sample_env
                             (upi_cart_request [sample_item 100 1])
                             empty_world)))
     = 1.
Proof.
  destruct (creation_frame (P := sample_platform) sample_env empty_world
              alice (sample_item 100 1) [] (Some sample_address) "alice@upi"
              eq_refl eq_refl eq_refl ltac:(discriminate))
    as ((_ & _ & Hcard) & (_ & _ & Hupi)).
  split; [exact Hcard | exact Hupi].
Defined.

(** Removing a product that the cart does not hold. *)
Lemma removeFromCart_absent (p : string) (c : list CartItem) :
  cart_find p c = None -> removeFromCart p c = c.
Proof.
  unfold cart_find, removeFromCart.
  induction c as [| x c IH]; simpl; [reflexivity |].
  destruct (String.eqb (cart_productId x) p); simpl; [discriminate |].
  intros H. now rewrite IH.
Qed.

(** X24: a product card's addToCart(product.id) on a product the cart does
    not hold adds it with quantity 1, and the minus button of the drawer on
    that entry then takes it out again: the cart is as it was before. *)
Theorem add_then_minus_restores (p : string) (c : list CartItem)
    (item : CartItem) :
  cart_find p c = None ->
  cart_find p (addToCart p None None c) = Some item ->
  cart_quantity item = 1%float
  /\ drawer_minus item (addToCart p None None c) = c.
Proof.
  intros Habsent Hitem.
  unfold addToCart in *. rewrite Habsent in *.
  rewrite cart_find_app, Habsent in Hitem. simpl in Hitem.
  rewrite String.eqb_refl in Hitem. injection Hitem as <-.
  split; [reflexivity |].
  unfold drawer_minus, updateCartQuantity. simpl.
  unfold removeFromCart. rewrite List.filter_app. simpl.
  rewrite String.eqb_refl. simpl. rewrite app_nil_r.
  now apply removeFromCart_absent.
Qed.

(** X24, instance: headphones added to an empty cart, then the minus
    button. *)
Lemma add_then_minus_restores_witness :
  drawer_minus
    {| cart_productId := "p1"; cart_quantity := 1; cart_variant := None |}
    (addToCart "p1" None None [])
  = [].
Proof.
  apply (add_then_minus_restores "p1" []
           {| cart_productId := "p1"; cart_quantity := 1;
              cart_variant := None |} eq_refl eq_refl).
Defined.
